(** * The session core of the letta-memgpt tool server (src/src/index.ts)

    A shallow embedding of class [LettaMemGPTServer]: the in-memory session
    (current provider, current model per provider), the durable store (the
    [memory] and [settings] tables), the external settings document of the
    host application, and the five tool handlers.  Handlers are written in
    a small state-and-exception monad: a JavaScript exception keeps every
    effect performed before it was thrown. *)

From Stdlib Require Import String Ascii ZArith List Sorted Permutation Lia.
From Stdlib Require Import OrderedTypeEx.
From stdpp Require Import base option list sorting gmap strings.

Local Open Scope string_scope.
Local Open Scope Z_scope.

(** ** Data model *)

(** [interface Memory], one row of table [memory].  [timestamp] is the text
    produced by CURRENT_TIMESTAMP; the engine compares it bytewise. *)
Record Memory := mkMemory {
  id : Z;
  userId : string;
  prompt : string;
  response : string;
  timestamp : string;
  provider : string;
}.

(** [ErrorCode] of the protocol SDK, as far as the server uses it. *)
Inductive ErrorCode := InvalidParams | InternalError | MethodNotFound.

(** Exceptions.  [Error m] is [new Error(m)]; [SystemError c m] is an error
    object that carries a [code] (axios, fs and sqlite errors);
    [McpError c m] is [new McpError(c, m)]. *)
Inductive js_error :=
  | Error (message : string)
  | SystemError (code : string) (message : string)
  | McpError (code : ErrorCode) (message : string).

(** The number of an [ErrorCode], as the SDK prints it. *)
Definition code_number (c : ErrorCode) : string :=
  match c with
  | InvalidParams => "-32602"
  | InternalError => "-32603"
  | MethodNotFound => "-32601"
  end.

(** [error.message].  The constructor of [McpError] puts the code before
    the text it is given. *)
Definition error_message (e : js_error) : string :=
  match e with
  | Error m => m
  | SystemError _ m => m
  | McpError c m => "MCP error " ++ code_number c ++ ": " ++ m
  end.

(** The TypeError of reading [property] of undefined.  The handlers read
    only [message] and [code] of what they catch, so a TypeError is an
    [Error] with its message. *)
Definition reading_undefined (property : string) : js_error :=
  Error ("Cannot read properties of undefined (reading '" ++ property ++ "')").

(** [error.code === c], for a string [c] *)
Definition has_code (e : js_error) (c : string) : bool :=
  match e with
  | SystemError c' _ => bool_decide (c' = c)
  | _ => false
  end.

(** [s || d] on strings: the empty string is falsy. *)
Definition or_else (s d : string) : string :=
  if decide (s = "") then d else s.

(** [!v] for an optional string property: undefined and the empty string
    are falsy. *)
Definition falsy (v : option string) : bool :=
  match v with
  | None => true
  | Some s => bool_decide (s = "")
  end.

(** A template literal prints an undefined property as the word
    undefined. *)
Definition render (v : option string) : string :=
  match v with
  | None => "undefined"
  | Some s => s
  end.

(** [xs.join(', ')] *)
Fixpoint join (xs : list string) : string :=
  match xs with
  | [] => ""
  | [x] => x
  | x :: rest => x ++ ", " ++ join rest
  end.

(** [s.includes(sub)] *)
Fixpoint includes (sub s : string) : bool :=
  String.prefix sub s ||
  match s with
  | EmptyString => false
  | String _ rest => includes sub rest
  end.

(** The settings document of the host application, at the shape the server
    reads it: [mcpServers] maps server names to entries; an entry may carry
    [defaultProvider] and a [models] map.  [mcpServers = None] stands for a
    document without that property, on which indexing throws a
    TypeError. *)
Record server_entry := mkEntry {
  defaultProvider : option string;
  models : option (gmap string string);
}.

Record settings_doc := mkDoc {
  mcpServers : option (gmap string server_entry);
}.

(** What [fs.readFile] followed by [JSON.parse] yields for [settingsPath]. *)
Inductive file_state :=
  | ReadFails (e : js_error)
  | Holds (doc : settings_doc).

(** The durable store.  [memory] is kept in rowid order; [memory_seq] is the
    AUTOINCREMENT counter, which DELETE does not reset; [settings] is the
    key/value table. *)
Record database := mkDb {
  memory : list Memory;
  memory_seq : Z;
  settings : gmap string string;
}.

(** The private fields of [LettaMemGPTServer]. *)
Record session := mkSession {
  openaiKey : string;
  anthropicKey : string;
  openrouterKey : string;
  currentProvider : string;
  currentModel : gmap string string;
}.

(** Everything a handler can read or change: the object, the store, the
    settings file, the URLs requested so far and the lines written by
    [console.error]. *)
Record state := mkState {
  this : session;
  db : database;
  settingsFile : file_state;
  requests : list string;
  console : list string;
}.

(** The statements the server sends to the store. *)
Inductive statement :=
  | CreateSettings | SelectProvider | InsertProvider | UpdateProvider
  | InsertMemory | SelectMemory | DeleteMemory.

Inductive http_reply :=
  | HttpFails (e : js_error)
  | HttpReturns (text : string).

Inductive tags_reply :=
  | TagsFails (e : js_error)
  | TagsReturns (names : list string).

(** The answers of the outside world during one call.
    - [now]: CURRENT_TIMESTAMP;
    - [db_error s]: the [err] the store passes to the callback of [s];
    - [order_by_timestamp_desc]: how the engine evaluates
      ORDER BY timestamp DESC on the rows in rowid order (rows with equal
      keys come in an order the engine chooses);
    - [write_error]: the exception of [fs.writeFile], if any;
    - [post url model message]: the outcome of [axios.post] and of reading
      the reply text out of the body ([HttpFails] also when the body lacks
      the path that is read);
    - [get_tags]: the outcome of GET /api/tags, as the list of the
      [name]s of [data.models || []]. *)
Record environment := mkEnv {
  now : string;
  db_error : statement -> option js_error;
  order_by_timestamp_desc : list Memory -> list Memory;
  write_error : option js_error;
  post : string -> option string -> string -> http_reply;
  get_tags : tags_reply;
}.

(** ** The monad of handlers *)

Inductive result (A : Type) :=
  | Ok (a : A)
  | Throw (e : js_error).
Arguments Ok {A} a.
Arguments Throw {A} e.

Definition M (A : Type) : Type := environment -> state -> result A * state.

Definition ret {A} (a : A) : M A := fun _ s => (Ok a, s).

Definition throw {A} (e : js_error) : M A := fun _ s => (Throw e, s).

Definition bind {A B} (m : M A) (k : A -> M B) : M B :=
  fun env s =>
    match m env s with
    | (Ok a, s') => k a env s'
    | (Throw e, s') => (Throw e, s')
    end.

(** [try { m } catch (error) { h error }] *)
Definition try_catch {A} (m : M A) (h : js_error -> M A) : M A :=
  fun env s =>
    match m env s with
    | (Ok a, s') => (Ok a, s')
    | (Throw e, s') => h e env s'
    end.

Definition gets {A} (f : state -> A) : M A := fun _ s => (Ok (f s), s).

Definition ask {A} (f : environment -> A) : M A := fun env s => (Ok (f env), s).

Definition modify (f : state -> state) : M unit := fun _ s => (Ok tt, f s).

Notation "'await' x <- m ; k" := (bind m (fun x => k))
  (at level 10, x name, m at level 100, k at level 200).
Notation "'exec' m ; k" := (bind m (fun _ => k))
  (at level 10, m at level 100, k at level 200).

(** Field updates. *)
Definition set_this (f : session -> session) (s : state) : state :=
  mkState (f (this s)) (db s) (settingsFile s) (requests s) (console s).

Definition set_db (f : database -> database) (s : state) : state :=
  mkState (this s) (f (db s)) (settingsFile s) (requests s) (console s).

Definition set_settingsFile (d : file_state) (s : state) : state :=
  mkState (this s) (db s) d (requests s) (console s).

Definition log_request (url : string) (s : state) : state :=
  mkState (this s) (db s) (settingsFile s) (requests s ++ [url]) (console s).

Definition log_console (line : string) (s : state) : state :=
  mkState (this s) (db s) (settingsFile s) (requests s) (console s ++ [line]).

Definition set_currentProvider (p : string) (o : session) : session :=
  mkSession (openaiKey o) (anthropicKey o) (openrouterKey o) p (currentModel o).

Definition set_currentModel (m : gmap string string) (o : session) : session :=
  mkSession (openaiKey o) (anthropicKey o) (openrouterKey o) (currentProvider o) m.

(** ** The outside world, as the handlers use it *)

(** [console.error(label, message)] *)
Definition console_error (label message : string) : M unit :=
  modify (log_console (label ++ " " ++ message)).

(** [JSON.parse(await fs.readFile(settingsPath, 'utf-8'))] *)
Definition read_settings : M settings_doc :=
  fun _ s =>
    match settingsFile s with
    | ReadFails e => (Throw e, s)
    | Holds doc => (Ok doc, s)
    end.

(** [await fs.writeFile(settingsPath, JSON.stringify(doc, null, 2))] *)
Definition write_settings (doc : settings_doc) : M unit :=
  fun env s =>
    match write_error env with
    | Some e => (Throw e, s)
    | None => (Ok tt, set_settingsFile (Holds doc) s)
    end.

(** [settings.mcpServers[name]]: a TypeError when [mcpServers] is missing,
    otherwise the entry or undefined. *)
Definition server_named (name : string) (doc : settings_doc)
  : M (option server_entry) :=
  match mcpServers doc with
  | None => throw (reading_undefined name)
  | Some servers => ret (servers !! name)
  end.

(** The document with [settings.mcpServers[name]] replaced. *)
Definition with_server (name : string) (e : server_entry) (doc : settings_doc)
  : settings_doc :=
  mkDoc (Some (<[name := e]> (default ∅ (mcpServers doc)))).

(** A statement whose callback receives [err]: the promise rejects with it,
    otherwise the statement takes effect. *)
Definition db_run (st : statement) (effect : database -> database) : M unit :=
  fun env s =>
    match db_error env st with
    | Some e => (Throw e, s)
    | None => (Ok tt, set_db effect s)
    end.

Definition db_query {A} (st : statement) (read : environment -> database -> A)
  : M A :=
  fun env s =>
    match db_error env st with
    | Some e => (Throw e, s)
    | None => (Ok (read env (db s)), s)
    end.

(** INSERT INTO settings (key, value) VALUES (k, v) *)
Definition insert_setting (k v : string) (d : database) : database :=
  mkDb (memory d) (memory_seq d) (<[k := v]> (settings d)).

(** UPDATE settings SET value = v WHERE key = k: no row, no change. *)
Definition update_setting (k v : string) (d : database) : database :=
  mkDb (memory d) (memory_seq d) (alter (fun _ => v) k (settings d)).

(** INSERT INTO memory (userId, prompt, response, provider): the store
    assigns the next identifier and the timestamp. *)
Definition insert_memory (t user p r prov : string) (d : database) : database :=
  mkDb (memory d ++ [mkMemory (memory_seq d + 1) user p r t prov])
       (memory_seq d + 1) (settings d).

(** DELETE FROM memory *)
Definition delete_memory (d : database) : database :=
  mkDb [] (memory_seq d) (settings d).

(** LIMIT n: a negative n is no upper bound. *)
Definition sql_limit {A} (n : Z) (rows : list A) : list A :=
  if n <? 0 then rows else take (Z.to_nat n) rows.

(** [axios.post(url, {model, ...message...})] and the reply text. *)
Definition axios_post (url : string) (model : option string) (message : string)
  : M string :=
  fun env s =>
    match post env url model message with
    | HttpFails e => (Throw e, log_request url s)
    | HttpReturns text => (Ok text, log_request url s)
    end.

Definition ollama_tags_url : string := "http://localhost:11434/api/tags".

(** [axios.get('http://localhost:11434/api/tags')] and the model names. *)
Definition axios_get_tags : M (list string) :=
  fun env s =>
    match get_tags env with
    | TagsFails e => (Throw e, log_request ollama_tags_url s)
    | TagsReturns names => (Ok names, log_request ollama_tags_url s)
    end.

(** ** The server *)

Definition server_name : string := "letta-memgpt".

Definition DEFAULT_USER : string := "default_user".

(** The field initialisers of the class, for the three keys read from the
    process environment. *)
Definition new_session (openai anthropic openrouter : string) : session :=
  mkSession openai anthropic openrouter "openai"
    (<["openai" := "gpt-3.5-turbo"]>
       (<["openrouter" := "openai/gpt-3.5-turbo"]>
          (<["anthropic" := "claude-2"]>
             (<["ollama" := "llama3.3:latest"]> ∅)))).

Definition updateSettingsFile (p : string) : M unit :=
  try_catch
    (await doc <- read_settings;
     await entry <- server_named server_name doc;
     match entry with
     | Some e =>
         write_settings
           (with_server server_name (mkEntry (Some p) (models e)) doc)
     | None => ret tt
     end)
    (fun error =>
       console_error "Failed to update settings file:" (error_message error)).

Definition readSettingsFile : M unit :=
  try_catch
    (await doc <- read_settings;
     await entry <- server_named server_name doc;
     match entry with
     | Some e =>
         if falsy (defaultProvider e) then ret tt
         else modify (set_this (set_currentProvider (render (defaultProvider e))))
     | None => ret tt
     end)
    (fun error =>
       console_error "Failed to read settings file:" (error_message error)).

(** The first CREATE TABLE has no callback, so its outcome never reaches the
    promise; the tables of the model always exist. *)
Definition initializeDatabase : M unit :=
  exec readSettingsFile;
  exec db_run CreateSettings (fun d => d);
  await row <- db_query SelectProvider
                 (fun _ d => settings d !! "current_provider");
  match row with
  | Some value => modify (set_this (set_currentProvider value))
  | None =>
      await p <- gets (fun s => currentProvider (this s));
      db_run InsertProvider (insert_setting "current_provider" p)
  end.

(** The object in [request.params.arguments], at the properties the
    handlers read, with the types that the input schemas of the tools
    declare.  A property that is absent is [None] (or [LimitUndefined]).  A
    request that carries no arguments object at all is handled by
    [call_tool_request] below. *)
Inductive limit_value :=
  | LimitUndefined
  | LimitNull
  | LimitNumber (n : Z).

Record arguments := mkArgs {
  arg_message : option string;
  arg_limit : limit_value;
  arg_provider : option string;
  arg_model : option string;
}.

(** The [content] of a tool result: a text, or the JSON text of the rows
    that [get_memory] read. *)
Inductive tool_result :=
  | Text (text : string)
  | MemoryRows (rows : list Memory).

Definition validProviders : list string :=
  ["openai"; "anthropic"; "openrouter"; "ollama"].

Definition handleUseProvider (args : arguments) : M tool_result :=
  if falsy (arg_provider args) then
    throw (McpError InvalidParams "Missing required parameter: provider")
  else
    let p := render (arg_provider args) in
    if negb (bool_decide (p ∈ validProviders)) then
      throw (McpError InvalidParams
               ("Invalid provider. Must be one of: " ++ join validProviders))
    else
      exec modify (set_this (set_currentProvider p));
      exec db_run UpdateProvider (update_setting "current_provider" p);
      exec updateSettingsFile p;
      ret (Text ("Now using " ++ p ++ " as the LLM provider (saved to settings)")).

Definition storeMemory (p r prov : string) : M unit :=
  await t <- ask now;
  db_run InsertMemory (insert_memory t DEFAULT_USER p r prov).

Definition queryOpenAI (message : string) : M string :=
  await key <- gets (fun s => openaiKey (this s));
  if decide (key = "") then throw (Error "OpenAI API key not configured")
  else
    await model <- gets (fun s => currentModel (this s) !! "openai");
    axios_post "https://api.openai.com/v1/chat/completions" model message.

Definition queryAnthropic (message : string) : M string :=
  await key <- gets (fun s => anthropicKey (this s));
  if decide (key = "") then throw (Error "Anthropic API key not configured")
  else
    await model <- gets (fun s => currentModel (this s) !! "anthropic");
    axios_post "https://api.anthropic.com/v1/messages" model message.

Definition queryOpenRouter (message : string) : M string :=
  await key <- gets (fun s => openrouterKey (this s));
  if decide (key = "") then throw (Error "OpenRouter API key not configured")
  else
    await model <- gets (fun s => currentModel (this s) !! "openrouter");
    axios_post "https://openrouter.ai/api/v1/chat/completions" model message.

Definition ollama_not_running : string :=
  "Ollama is not running. Please start Ollama first (https://ollama.ai)".

(** The check of a model name against the live list, shared by
    [queryOllama] and [handleUseModel]. *)
Definition check_ollama_model (model : option string) : M unit :=
  try_catch
    (await names <- axios_get_tags;
     if existsb (fun n => bool_decide (Some n = model)) names then ret tt
     else throw (Error ("Model " ++ render model
                          ++ " not found. Available models: " ++ join names)))
    (fun error =>
       if has_code error "ECONNREFUSED" then throw (Error ollama_not_running)
       else throw error).

Definition queryOllama (message : string) : M string :=
  try_catch
    (await model <- gets (fun s => currentModel (this s) !! "ollama");
     exec check_ollama_model model;
     await text <- axios_post "http://localhost:11434/api/generate" model message;
     if decide (text = "") then throw (Error "No response received from Ollama")
     else ret text)
    (fun error =>
       throw (Error ("Ollama error: "
                       ++ or_else (error_message error) "Unknown error"))).

(** The [switch] of [handleChat] on the current provider. *)
Definition query_provider (p : string) (args : arguments) (message : string)
  : M string :=
  if decide (p = "openai") then queryOpenAI message
  else if decide (p = "anthropic") then queryAnthropic message
  else if decide (p = "openrouter") then queryOpenRouter message
  else if decide (p = "ollama") then queryOllama message
  else throw (McpError InvalidParams
                ("Unsupported provider: " ++ render (arg_provider args))).

Definition handleChat (args : arguments) : M tool_result :=
  if falsy (arg_message args) then
    throw (McpError InvalidParams "Missing required parameter: message")
  else
    let message := render (arg_message args) in
    try_catch
      (await p <- gets (fun s => currentProvider (this s));
       await response <- query_provider p args message;
       await p' <- gets (fun s => currentProvider (this s));
       exec storeMemory message response p';
       ret (Text response))
      (fun error =>
         throw (McpError InternalError
                  ("Error querying " ++ render (arg_provider args) ++ ": "
                     ++ or_else (error_message error) "Unknown error"))).

(** [args.limit === null] selects the query without LIMIT; otherwise the
    bound is [args.limit || 10]. *)
Definition limit_param (l : limit_value) : option Z :=
  match l with
  | LimitNull => None
  | LimitUndefined => Some 10
  | LimitNumber n => Some (if n =? 0 then 10 else n)
  end.

Definition select_memory (l : option Z) (env : environment) (d : database)
  : list Memory :=
  match l with
  | None => order_by_timestamp_desc env (memory d)
  | Some n => sql_limit n (order_by_timestamp_desc env (memory d))
  end.

Definition handleGetMemory (args : arguments) : M tool_result :=
  await memories <- db_query SelectMemory
                      (select_memory (limit_param (arg_limit args)));
  ret (MemoryRows memories).

Definition handleClearMemory : M tool_result :=
  exec db_run DeleteMemory delete_memory;
  ret (Text "Memory cleared").

Definition openaiModels : list string := ["gpt-4o"; "gpt-4o-mini"; "gpt-4-turbo"].

Definition anthropicModels : list string :=
  ["claude-3-haiku"; "claude-3-sonnet"; "claude-3-opus";
   "claude-3.5-haiku"; "claude-3.5-sonnet"].

Definition openrouter_format : string :=
  "OpenRouter model must be in format: provider/model (e.g., openai/gpt-4, anthropic/claude-2)".

(** The [switch] of [handleUseModel] that validates the model for the
    current provider. *)
Definition validate_model (p model : string) : M unit :=
  if decide (p = "openai") then
    if bool_decide (model ∈ openaiModels) then ret tt
    else throw (Error ("Invalid OpenAI model. Available models: "
                         ++ join openaiModels))
  else if decide (p = "openrouter") then
    if includes "/" model then ret tt
    else throw (Error openrouter_format)
  else if decide (p = "ollama") then
    check_ollama_model (Some model)
  else if decide (p = "anthropic") then
    if bool_decide (model ∈ anthropicModels) then ret tt
    else throw (Error ("Invalid Anthropic model. Available models: "
                         ++ join anthropicModels))
  else throw (Error ("Cannot set model for provider: " ++ p)).

(** The statements of [handleUseModel] that record the model in the
    settings file, under [models] of this server's entry. *)
Definition record_model (p model : string) : M unit :=
  await doc <- read_settings;
  await entry <- server_named server_name doc;
  match entry with
  | Some e =>
      write_settings
        (with_server server_name
           (mkEntry (defaultProvider e)
              (Some (<[p := model]> (default ∅ (models e))))) doc)
  | None => ret tt
  end.

Definition handleUseModel (args : arguments) : M tool_result :=
  if falsy (arg_model args) then
    throw (McpError InvalidParams "Missing required parameter: model")
  else
    let model := render (arg_model args) in
    try_catch
      (await p <- gets (fun s => currentProvider (this s));
       exec validate_model p model;
       exec modify (set_this (fun o =>
              set_currentModel (<[currentProvider o := model]> (currentModel o)) o));
       await p' <- gets (fun s => currentProvider (this s));
       exec record_model p' model;
       ret (Text ("Now using " ++ model ++ " with " ++ p')))
      (fun error =>
         throw (McpError InternalError
                  (or_else (error_message error) "Failed to set model"))).

(** The CallTool request handler, on a request that carries an arguments
    object. *)
Definition call_tool (name : string) (args : arguments) : M tool_result :=
  if decide (name = "chat") then handleChat args
  else if decide (name = "get_memory") then handleGetMemory args
  else if decide (name = "clear_memory") then handleClearMemory
  else if decide (name = "use_provider") then handleUseProvider args
  else if decide (name = "use_model") then handleUseModel args
  else throw (McpError MethodNotFound ("Unknown tool: " ++ name)).

(** The CallTool request handler, on a request as it arrives:
    [request.params.arguments] is an object or undefined.  On undefined,
    every handler that takes [args] throws at its first statement, the read
    of a property of [args] (lines 265, 309, 359 and 402; in
    [handleGetMemory] the read is in the executor of the promise, which
    turns the exception into the rejection), outside every [try];
    [handleClearMemory] takes no [args]. *)
Definition call_tool_request (name : string) (args : option arguments)
  : M tool_result :=
  match args with
  | Some args => call_tool name args
  | None =>
      if decide (name = "chat") then throw (reading_undefined "message")
      else if decide (name = "get_memory") then throw (reading_undefined "limit")
      else if decide (name = "clear_memory") then handleClearMemory
      else if decide (name = "use_provider") then throw (reading_undefined "provider")
      else if decide (name = "use_model") then throw (reading_undefined "model")
      else throw (McpError MethodNotFound ("Unknown tool: " ++ name))
  end.

(** A process start: the constructor's fields over the store and the
    settings file as they are found; [run] then calls [initialize]. *)
Definition new_process (openai anthropic openrouter : string)
  (d : database) (f : file_state) : state :=
  mkState (new_session openai anthropic openrouter) d f [] [].

(** ** Vocabulary of the properties *)

(** The provider value the settings file supplies: the file is readable,
    names this server, and the entry has a truthy [defaultProvider]. *)
Definition mirror_provider (f : file_state) : option string :=
  match f with
  | ReadFails _ => None
  | Holds doc =>
      match mcpServers doc with
      | None => None
      | Some servers =>
          match servers !! server_name with
          | None => None
          | Some e => if falsy (defaultProvider e) then None else defaultProvider e
          end
      end
  end.

(** The durable [current_provider] row. *)
Definition provider_row (d : database) : option string :=
  settings d !! "current_provider".

Definition registered (p : string) : Prop := p ∈ validProviders.

(** An engine that scans in rowid order and sorts stably: rows with equal
    timestamps stay in rowid order. *)
Fixpoint insert_desc (m : Memory) (rows : list Memory) : list Memory :=
  match rows with
  | [] => [m]
  | r :: rest =>
      if String.leb (timestamp r) (timestamp m) then m :: r :: rest
      else r :: insert_desc m rest
  end.

Definition stable_order_by (rows : list Memory) : list Memory :=
  foldr insert_desc [] rows.

(** [m] keeps [R] between the state it starts from and the one it leaves,
    whether it returns or throws. *)
Definition keeps (R : state -> state -> Prop) {A} (m : M A) : Prop :=
  forall env s, R s (snd (m env s)).

(** The current provider is the same before and after. *)
Definition same_provider (s s' : state) : Prop :=
  currentProvider (this s') = currentProvider (this s).

(** The value start-up resolves: the row, else the settings file, else the
    initial value of the field. *)
Definition resolved_provider (d : database) (f : file_state) : string :=
  default (default "openai" (mirror_provider f)) (provider_row d).

(** The states a started process goes through: one tool call after
    another, each in its own outside world. *)
Inductive reaches (s0 : state) : state -> Prop :=
  | reaches_start : reaches s0 s0
  | reaches_call s name args env :
      reaches s0 s -> reaches s0 (snd (call_tool name args env s)).

(** Only the request log may differ. *)
Definition only_requests (s s' : state) : Prop :=
  this s' = this s /\ db s' = db s /\ settingsFile s' = settingsFile s /\
  console s' = console s.

(** The Exchange that a chat call appends. *)
Definition exchange (env : environment) (s : state) (message text : string)
  : Memory :=
  mkMemory (memory_seq (db s) + 1) DEFAULT_USER message text (now env)
    (currentProvider (this s)).

(** The current provider needs a key and none is configured. *)
Definition secret_missing (o : session) : Prop :=
  (currentProvider o = "openai" /\ openaiKey o = "") \/
  (currentProvider o = "anthropic" /\ anthropicKey o = "") \/
  (currentProvider o = "openrouter" /\ openrouterKey o = "").

(** The message of the error thrown for a missing key. *)
Definition key_not_configured (p : string) : string :=
  (if decide (p = "openai") then "OpenAI"
   else if decide (p = "anthropic") then "Anthropic" else "OpenRouter")
  ++ " API key not configured".

(** The assignment [this.currentModel[this.currentProvider] = model]. *)
Definition assign_model (m : string) (s : state) : state :=
  set_this (fun o =>
    set_currentModel (<[currentProvider o := m]> (currentModel o)) o) s.

(** Reading or rewriting the settings file throws: the file cannot be read
    or parsed, or the document has no [mcpServers], or it names this server
    and the write fails. *)
Definition settings_update_throws (env : environment) (f : file_state) : Prop :=
  match f with
  | ReadFails _ => True
  | Holds doc =>
      match mcpServers doc with
      | None => True
      | Some servers =>
          is_Some (servers !! server_name) /\ is_Some (write_error env)
      end
  end.

(** [a] may come before [b]: its timestamp is not older. *)
Definition not_older (a b : Memory) : Prop :=
  String.leb (timestamp b) (timestamp a) = true.

(** Ordered by descending timestamp. *)
Definition newest_first (rows : list Memory) : Prop :=
  StronglySorted not_older rows.

(** The engine's answer for this table is the table, newest first. *)
Definition engine_answers (env : environment) (table : list Memory) : Prop :=
  Permutation (order_by_timestamp_desc env table) table /\
  newest_first (order_by_timestamp_desc env table).

(** Ordered as C3 states it: strictly descending timestamps, rows with
    equal timestamps by descending identifier. *)
Definition newest_first_then_id (rows : list Memory) : Prop :=
  StronglySorted
    (fun a b =>
       String.ltb (timestamp b) (timestamp a) = true \/
       (timestamp b = timestamp a /\ id b < id a))
    rows.

(** The keys and the models of the object are the same before and after. *)
Definition same_keys_and_models (s s' : state) : Prop :=
  openaiKey (this s') = openaiKey (this s) /\
  anthropicKey (this s') = anthropicKey (this s) /\
  openrouterKey (this s') = openrouterKey (this s) /\
  currentModel (this s') = currentModel (this s).

(** The models a fresh object holds. *)
Definition default_models : gmap string string :=
  currentModel (new_session "" "" "").

(** The row holds the provider that the object holds. *)
Definition row_in_sync (s : state) : Prop :=
  provider_row (db s) = Some (currentProvider (this s)).

(** The states a started process goes through while the store accepts the
    UPDATE of the settings row. *)
Inductive reaches_updating (s0 : state) : state -> Prop :=
  | reaches_updating_start : reaches_updating s0 s0
  | reaches_updating_call s name args env :
      reaches_updating s0 s ->
      db_error env UpdateProvider = None ->
      reaches_updating s0 (snd (call_tool name args env s)).

(** What a call may do to the provider and its row: nothing. *)
Definition same_provider_and_row (s s' : state) : Prop :=
  currentProvider (this s') = currentProvider (this s) /\
  provider_row (db s') = provider_row (db s).

(** The rule a model must pass for a provider, given the names that the
    local service lists. *)
Definition model_accepted (p m : string) (names : list string) : Prop :=
  (p = "openai" /\ m ∈ openaiModels) \/
  (p = "anthropic" /\ m ∈ anthropicModels) \/
  (p = "openrouter" /\ exists a b, m = a +:+ "/" +:+ b) \/
  (p = "ollama" /\ m ∈ names).

(** The identifiers of the stored rows rise with the rowid and none exceeds
    the counter. *)
Definition ids_fresh (d : database) : Prop :=
  StronglySorted (fun a b => id a < id b) (memory d) /\
  Forall (fun r => id r <= memory_seq d) (memory d).

(** What a call may do to the identifiers: keep them fresh, never lower
    the counter, and give every row that was not there before an identifier
    above the counter. *)
Definition ids_kept (s s' : state) : Prop :=
  (ids_fresh (db s) -> ids_fresh (db s')) /\
  memory_seq (db s) <= memory_seq (db s') /\
  (forall r, r ∈ memory (db s') ->
             r ∈ memory (db s) \/ memory_seq (db s) < id r).

(** The number of rows that LIMIT lets through for a [limit] argument, out
    of [count] rows. *)
Definition rows_returned (l : limit_value) (count : nat) : nat :=
  match l with
  | LimitNull => count
  | LimitUndefined => Nat.min 10 count
  | LimitNumber n =>
      if n =? 0 then Nat.min 10 count
      else if n <? 0 then count
      else Nat.min (Z.to_nat n) count
  end.

(** The three providers that need a key. *)
Definition cloud (p : string) : Prop :=
  p = "openai" \/ p = "anthropic" \/ p = "openrouter".

(** The URL that the query function of a cloud provider posts to. *)
Definition endpoint (p : string) : string :=
  if decide (p = "openai") then "https://api.openai.com/v1/chat/completions"
  else if decide (p = "anthropic") then "https://api.anthropic.com/v1/messages"
  else "https://openrouter.ai/api/v1/chat/completions".

(** The key that the query function of a cloud provider checks. *)
Definition api_key (p : string) (o : session) : string :=
  if decide (p = "openai") then openaiKey o
  else if decide (p = "anthropic") then anthropicKey o
  else openrouterKey o.

(** The message of the internal error that [handleChat] raises for [e]. *)
Definition chat_failure (args : arguments) (e : js_error) : js_error :=
  McpError InternalError
    ("Error querying " +:+ render (arg_provider args) +:+ ": "
       +:+ or_else (error_message e) "Unknown error").

Definition ollama_generate_url : string := "http://localhost:11434/api/generate".

(** The local service lists the current model of ollama. *)
Definition ollama_model_listed (env : environment) (s : state) : Prop :=
  match get_tags env with
  | TagsFails _ => False
  | TagsReturns names =>
      exists n, n ∈ names /\ Some n = currentModel (this s) !! "ollama"
  end.

(** One entry of [properties] of an input schema. *)
Record schema_property := mkProperty {
  property_name : string;
  property_type : string;
  property_description : string;
}.

(** One entry of [tools] in the answer to a ListTools request. *)
Record tool := mkTool {
  tool_name : string;
  tool_description : string;
  tool_properties : list schema_property;
  tool_required : list string;
}.

(** The answer of the ListTools request handler. *)
Definition list_tools : list tool :=
  [ mkTool "chat" "Send a message to the current LLM provider"
      [mkProperty "message" "string" "The message to send to the LLM"]
      ["message"];
    mkTool "get_memory" "Retrieve conversation history"
      [mkProperty "limit" "number" "Maximum number of memories to retrieve"]
      [];
    mkTool "clear_memory" "Clear conversation history" [] [];
    mkTool "use_provider" "Switch to a different LLM provider"
      [mkProperty "provider" "string"
         "The LLM provider to use (openai, anthropic, openrouter, or ollama)"]
      ["provider"];
    mkTool "use_model" "Switch to a different model for the current provider"
      [mkProperty "model" "string"
         "The model to use. For OpenAI: gpt-4o, gpt-4o-mini, gpt-4-turbo. For OpenRouter: openai/gpt-4, anthropic/claude-2, etc. For Ollama: llama2, codellama, etc."]
      ["model"] ].

(** The string argument that a property of a schema names. *)
Definition string_argument (property : string) (args : arguments)
  : option string :=
  if decide (property = "message") then arg_message args
  else if decide (property = "provider") then arg_provider args
  else if decide (property = "model") then arg_model args
  else None.

(** What a call may do to the models: change the one of the current
    provider. *)
Definition other_models_kept (s s' : state) : Prop :=
  currentProvider (this s') = currentProvider (this s) /\
  forall q, q <> currentProvider (this s) ->
            currentModel (this s') !! q = currentModel (this s) !! q.

(** The models are the same before and after. *)
Definition same_models (s s' : state) : Prop :=
  currentModel (this s') = currentModel (this s).

(** ** Example states and outside worlds *)

(** An outside world in which nothing fails. *)
Definition calm : environment :=
  mkEnv "2024-05-01 10:00:00" (fun _ => None) stable_order_by None
    (fun _ _ _ => HttpReturns "hello back") (TagsReturns ["llama3.3:latest"]).

(** A settings file that names this server with provider anthropic. *)
Definition mirror_anthropic : file_state :=
  Holds (mkDoc (Some {[ server_name := mkEntry (Some "anthropic") None ]})).

(** A store whose settings row holds the given provider. *)
Definition db_with_row (p : string) : database :=
  mkDb [] 0 {[ "current_provider" := p ]}.

(** Arguments of [use_provider]. *)
Definition chatgpt_args : arguments :=
  mkArgs None LimitUndefined (Some "chatgpt") None.

Definition ollama_args : arguments :=
  mkArgs None LimitUndefined (Some "ollama") None.

(** The rejection of [fs.readFile] for a missing file. *)
Definition no_file : js_error :=
  SystemError "ENOENT" "no such file or directory".

(** Arguments of [chat]. *)
Definition hello_args : arguments :=
  mkArgs (Some "hello") LimitUndefined None None.

(** A process on openai with a key, beside a settings file that cannot be
    read. *)
Definition chatting : state :=
  new_process "sk-1" "" "" (db_with_row "openai") (ReadFails no_file).

(** The outside world of [calm], with a store that refuses insertions into
    [memory]. *)
Definition store_full : environment :=
  mkEnv (now calm)
    (fun st => match st with
               | InsertMemory => Some (SystemError "SQLITE_FULL" "database or disk is full")
               | _ => None
               end)
    (order_by_timestamp_desc calm) (write_error calm) (post calm) (get_tags calm).

(** A process over a store whose row holds anthropic, without any key. *)
Definition keyless : state :=
  new_process "" "" "" (db_with_row "anthropic") (ReadFails no_file).

(** The same process once started. *)
Definition keyless_started : state := snd (initializeDatabase calm keyless).

(** Arguments of [use_model]. *)
Definition gpt4o_args : arguments :=
  mkArgs None LimitUndefined None (Some "gpt-4o").

Definition gpt5_args : arguments :=
  mkArgs None LimitUndefined None (Some "gpt-5").

(** A started process on ollama. *)
Definition on_ollama : state :=
  snd (initializeDatabase calm
         (new_process "" "" "" (db_with_row "ollama") (ReadFails no_file))).

(** Two Exchanges written within the same second. *)
Definition same_second : list Memory :=
  [mkMemory 1 DEFAULT_USER "hi" "hello" "2024-05-01 10:00:00" "openai";
   mkMemory 2 DEFAULT_USER "and now" "still here" "2024-05-01 10:00:00" "openai"].

(** A process over a store that holds them. *)
Definition two_exchanges : state :=
  new_process "sk-1" "" "" (mkDb same_second 2 {[ "current_provider" := "openai" ]})
    (ReadFails no_file).

(** Arguments of [get_memory]. *)
Definition limit_args (l : limit_value) : arguments := mkArgs None l None None.

(** A started process on openai whose row holds openai. *)
Definition synced : state :=
  snd (initializeDatabase calm
         (new_process "sk-1" "" "" (db_with_row "openai") (ReadFails no_file))).

(** The outside world of [calm], with a store that refuses the UPDATE of
    the settings row. *)
Definition store_locked : environment :=
  mkEnv (now calm)
    (fun st => match st with
               | UpdateProvider => Some (SystemError "SQLITE_BUSY" "database is locked")
               | _ => None
               end)
    (order_by_timestamp_desc calm) (write_error calm) (post calm) (get_tags calm).

(** A settings file that names this server, with a model recorded for
    openai, and another server beside it. *)
Definition two_servers : gmap string server_entry :=
  <[server_name := mkEntry (Some "openai") (Some {[ "openai" := "gpt-4o" ]})]>
    {[ "filesystem" := mkEntry None None ]}.

Definition synced_with_file : state :=
  mkState (this synced) (db synced) (Holds (mkDoc (Some two_servers)))
    (requests synced) (console synced).

(** The outside world of [calm], with a settings file that cannot be
    written. *)
Definition read_only_file : environment :=
  mkEnv (now calm) (db_error calm) (order_by_timestamp_desc calm)
    (Some (SystemError "EACCES" "permission denied")) (post calm) (get_tags calm).

(** A process on openai beside a settings file of another server only. *)
Definition beside_other_server : state :=
  mkState (this synced) (db synced)
    (Holds (mkDoc (Some {[ "filesystem" := mkEntry None None ]})))
    (requests synced) (console synced).

(** The table is cleared, then a chat on openai returns. *)
Definition cleared : state := snd (call_tool "clear_memory" hello_args calm two_exchanges).

(** One second after the two stored Exchanges. *)
Definition later : environment :=
  mkEnv "2024-05-01 10:00:01" (db_error calm) (order_by_timestamp_desc calm)
    (write_error calm) (post calm) (get_tags calm).

(** The outside world of [calm], with backends that time out. *)
Definition backends_down : environment :=
  mkEnv (now calm) (db_error calm) (order_by_timestamp_desc calm) (write_error calm)
    (fun _ _ _ => HttpFails (SystemError "ETIMEDOUT" "timeout of 0ms exceeded"))
    (TagsFails (SystemError "ECONNREFUSED" "connect ECONNREFUSED 127.0.0.1:11434")).

(** The outside world of [calm], with a local service that lists the model
    and generates nothing. *)
Definition ollama_mute : environment :=
  mkEnv (now calm) (db_error calm) (order_by_timestamp_desc calm) (write_error calm)
    (fun _ _ _ => HttpReturns "") (TagsReturns ["llama3.3:latest"]).

(** A call of [use_model] with an empty model. *)
Definition empty_model_args : arguments := mkArgs None LimitUndefined None (Some "").

(** A process started on a row that holds an unregistered identifier. *)
Definition on_chatgpt : state :=
  snd (initializeDatabase calm
         (new_process "sk-1" "" "" (db_with_row "chatgpt") (ReadFails no_file))).

(** ** Running the monad *)

Ltac run :=
  unfold bind, try_catch, ret, throw, gets, ask, modify, console_error,
    db_run, db_query, read_settings, write_settings, server_named; simpl.

(** [readSettingsFile] never throws: it adopts the provider that the
    settings file supplies, if any, and otherwise only writes to the
    console. *)
Lemma readSettingsFile_spec env s :
  exists lines,
    readSettingsFile env s =
      (Ok tt,
       mkState
         (set_currentProvider
            (default (currentProvider (this s)) (mirror_provider (settingsFile s)))
            (this s))
         (db s) (settingsFile s) (requests s) (console s ++ lines)).
Proof.
  unfold readSettingsFile, mirror_provider. run.
  destruct s as [o d f rq c]; simpl.
  destruct o as [k1 k2 k3 p cm]; simpl.
  destruct f as [e|[[servers|]]]; simpl.
  - eexists [_]. reflexivity.
  - destruct (servers !! server_name) as [[dp ms]|]; simpl.
    + destruct (falsy dp) eqn:F; simpl.
      * exists []. by rewrite app_nil_r.
      * destruct dp; [|done]. exists []. by rewrite app_nil_r.
    + exists []. by rewrite app_nil_r.
  - eexists [_]. reflexivity.
Qed.

(** ** Frame rules: what a computation leaves alone *)

Section Frame.
Variable R : state -> state -> Prop.
Hypothesis R_refl : forall s, R s s.
Hypothesis R_trans : forall s1 s2 s3, R s1 s2 -> R s2 s3 -> R s1 s3.

Lemma keeps_ret {A} (a : A) : keeps R (ret a).
Proof. intros env s. apply R_refl. Qed.

Lemma keeps_throw {A} e : keeps R (@throw A e).
Proof. intros env s. apply R_refl. Qed.

Lemma keeps_gets {A} (f : state -> A) : keeps R (gets f).
Proof. intros env s. apply R_refl. Qed.

Lemma keeps_ask {A} (f : environment -> A) : keeps R (ask f).
Proof. intros env s. apply R_refl. Qed.

Lemma keeps_bind {A B} (m : M A) (k : A -> M B) :
  keeps R m -> (forall a, keeps R (k a)) -> keeps R (bind m k).
Proof.
  intros Hm Hk env s. unfold bind. specialize (Hm env s).
  destruct (m env s) as [[a|e] s1]; simpl in *; [|exact Hm].
  eapply R_trans; [exact Hm|apply Hk].
Qed.

Lemma keeps_try_catch {A} (m : M A) h :
  keeps R m -> (forall e, keeps R (h e)) -> keeps R (try_catch m h).
Proof.
  intros Hm Hh env s. unfold try_catch. specialize (Hm env s).
  destruct (m env s) as [[a|e] s1]; simpl in *; [exact Hm|].
  eapply R_trans; [exact Hm|apply Hh].
Qed.

Lemma keeps_modify f : (forall s, R s (f s)) -> keeps R (modify f).
Proof. intros Hf env s. apply Hf. Qed.

Lemma keeps_db_run st f : (forall s, R s (set_db f s)) -> keeps R (db_run st f).
Proof.
  intros Hf env s. unfold db_run. destruct (db_error env st); simpl; auto.
Qed.

Lemma keeps_db_query {A} st (read : environment -> database -> A) :
  keeps R (db_query st read).
Proof.
  intros env s. unfold db_query. destruct (db_error env st); simpl; auto.
Qed.

Lemma keeps_read_settings : keeps R read_settings.
Proof.
  intros env s. unfold read_settings. destruct (settingsFile s); simpl; auto.
Qed.

Lemma keeps_server_named name doc : keeps R (server_named name doc).
Proof.
  unfold server_named. destruct (mcpServers doc);
    [apply keeps_ret | apply keeps_throw].
Qed.

Lemma keeps_write_settings doc :
  (forall s, R s (set_settingsFile (Holds doc) s)) -> keeps R (write_settings doc).
Proof.
  intros Hf env s. unfold write_settings.
  destruct (write_error env); simpl; auto.
Qed.

Lemma keeps_axios_post url model message :
  (forall s, R s (log_request url s)) -> keeps R (axios_post url model message).
Proof.
  intros Hf env s. unfold axios_post.
  destruct (post env url model message); simpl; auto.
Qed.

Lemma keeps_axios_get_tags :
  (forall s, R s (log_request ollama_tags_url s)) -> keeps R axios_get_tags.
Proof.
  intros Hf env s. unfold axios_get_tags.
  destruct (get_tags env); simpl; auto.
Qed.

Lemma keeps_console_error label message :
  (forall line s, R s (log_console line s)) ->
  keeps R (console_error label message).
Proof. intros Hf env s. apply Hf. Qed.
End Frame.

Create HintDb frame.
#[export] Hint Resolve keeps_ret keeps_throw keeps_gets keeps_ask keeps_db_query
  keeps_read_settings keeps_server_named : frame.

(** Repeatedly split a computation along its binds, handlers and
    branches. *)
Ltac frame_step :=
  match goal with
  | |- keeps _ (bind _ _) => apply keeps_bind; [assumption..| |intros ?]
  | |- keeps _ (try_catch _ _) => apply keeps_try_catch; [assumption..| |intros ?]
  | |- keeps _ (if ?c then _ else _) => destruct c
  | |- keeps _ (match ?c with _ => _ end) => destruct c
  | |- keeps _ (modify _) => apply keeps_modify; [assumption..|]
  | |- keeps _ (db_run _ _) => apply keeps_db_run; [assumption..|]
  | |- keeps _ (write_settings _) => apply keeps_write_settings; [assumption..|]
  | |- keeps _ (axios_post _ _ _) => apply keeps_axios_post; [assumption..|]
  | |- keeps _ axios_get_tags => apply keeps_axios_get_tags; [assumption..|]
  | |- keeps _ (console_error _ _) => apply keeps_console_error; [assumption..|]
  | |- keeps _ _ => solve [eauto with frame]
  end.

Lemma same_provider_refl s : same_provider s s.
Proof. reflexivity. Qed.

Lemma same_provider_trans s1 s2 s3 :
  same_provider s1 s2 -> same_provider s2 s3 -> same_provider s1 s3.
Proof. unfold same_provider. congruence. Qed.

Ltac frame R_refl R_trans :=
  pose proof R_refl as Hrefl; pose proof R_trans as Htrans;
  repeat frame_step.

Lemma handleChat_same_provider args : keeps same_provider (handleChat args).
Proof.
  unfold handleChat, query_provider, storeMemory, queryOpenAI, queryAnthropic,
    queryOpenRouter, queryOllama, check_ollama_model.
  frame same_provider_refl same_provider_trans; intros; reflexivity.
Qed.

(** ** Start-up *)

(** [initializeDatabase] on a store that answers: the row wins when it
    exists; otherwise the value left by [readSettingsFile] is inserted. *)
Lemma initializeDatabase_spec env s :
  db_error env CreateSettings = None ->
  db_error env SelectProvider = None ->
  (provider_row (db s) = None -> db_error env InsertProvider = None) ->
  exists s',
    initializeDatabase env s = (Ok tt, s') /\
    settingsFile s' = settingsFile s /\
    memory (db s') = memory (db s) /\
    match provider_row (db s) with
    | Some v => currentProvider (this s') = v /\ db s' = db s
    | None =>
        currentProvider (this s') =
          default (currentProvider (this s)) (mirror_provider (settingsFile s)) /\
        provider_row (db s') = Some (currentProvider (this s'))
    end.
Proof.
  intros Hc Hs Hi. unfold initializeDatabase, provider_row in *.
  destruct (readSettingsFile_spec env s) as [lines Hr].
  unfold bind at 1. rewrite Hr. run. rewrite Hc, Hs. simpl.
  destruct s as [o d f rq c]; simpl in *.
  destruct (settings d !! "current_provider") as [v|] eqn:Hrow; simpl.
  - eexists. split; [reflexivity|]. simpl. by destruct d.
  - rewrite Hi by reflexivity. simpl. eexists. split; [reflexivity|]. simpl.
    repeat split. apply lookup_insert_eq.
Qed.

(** A start that returns had a store that answered. *)
Lemma initializeDatabase_returns env s s' :
  initializeDatabase env s = (Ok tt, s') ->
  db_error env CreateSettings = None /\
  db_error env SelectProvider = None /\
  (provider_row (db s) = None -> db_error env InsertProvider = None).
Proof.
  unfold initializeDatabase, provider_row.
  destruct (readSettingsFile_spec env s) as [lines Hr].
  unfold bind at 1. rewrite Hr. run.
  destruct (db_error env CreateSettings); [discriminate|].
  destruct (db_error env SelectProvider); [discriminate|]. simpl.
  destruct (settings (db s) !! "current_provider"); simpl.
  - intros _. repeat split. discriminate.
  - destruct (db_error env InsertProvider); [discriminate|]. done.
Qed.

Lemma start_resolves env k1 k2 k3 d f s' :
  initializeDatabase env (new_process k1 k2 k3 d f) = (Ok tt, s') ->
  currentProvider (this s') = resolved_provider d f /\
  provider_row (db s') = Some (resolved_provider d f).
Proof.
  intros Hrun.
  destruct (initializeDatabase_returns _ _ _ Hrun) as (Hc & Hs & Hi).
  destruct (initializeDatabase_spec _ _ Hc Hs Hi) as (s2 & Hrun2 & _ & _ & Hres).
  rewrite Hrun in Hrun2. injection Hrun2 as <-.
  unfold resolved_provider. simpl in Hres.
  destruct (provider_row d) as [v|] eqn:Hrow; simpl.
  - destruct Hres as [-> ->]. done.
  - destruct Hres as [-> ->]. done.
Qed.

(** C1, as stated, fails: the settings file supplies anthropic, the row
    holds ollama, and the process starts with ollama. *)
Lemma load_mirror_over_row_counterexample :
  mirror_provider mirror_anthropic = Some "anthropic" /\
  provider_row (db_with_row "ollama") = Some "ollama" /\
  fst (initializeDatabase calm
         (new_process "" "" "" (db_with_row "ollama") mirror_anthropic))
    = Ok tt /\
  currentProvider
    (this (snd (initializeDatabase calm
                  (new_process "" "" "" (db_with_row "ollama") mirror_anthropic))))
    = "ollama".
Proof. repeat split; vm_compute; reflexivity. Qed.

(** C1 (amended): at start-up, on a store that answers, the durable
    [current_provider] row decides whenever it exists, whatever the settings
    file says, and the store is left as it was; when the row is absent the
    provider is the value the settings file supplies, or openai when it
    supplies none, and that value is written to the row. *)
Theorem load_precedence env k1 k2 k3 d f :
  db_error env CreateSettings = None ->
  db_error env SelectProvider = None ->
  db_error env InsertProvider = None ->
  exists s',
    initializeDatabase env (new_process k1 k2 k3 d f) = (Ok tt, s') /\
    match provider_row d with
    | Some v => currentProvider (this s') = v /\ db s' = d
    | None =>
        currentProvider (this s') = default "openai" (mirror_provider f) /\
        provider_row (db s') = Some (currentProvider (this s'))
    end.
Proof.
  intros Hc Hs Hi.
  destruct (initializeDatabase_spec env (new_process k1 k2 k3 d f) Hc Hs
              (fun _ => Hi)) as (s' & Hrun & _ & _ & Hres).
  exists s'. split; [exact Hrun|]. exact Hres.
Qed.

(** The row holds ollama and the settings file says anthropic. *)
Lemma load_precedence_witness :
  db_error calm CreateSettings = None /\
  db_error calm SelectProvider = None /\
  db_error calm InsertProvider = None /\
  exists s',
    initializeDatabase calm
      (new_process "" "" "" (db_with_row "ollama") mirror_anthropic)
      = (Ok tt, s') /\
    currentProvider (this s') = "ollama" /\ db s' = db_with_row "ollama".
Proof.
  repeat split.
  exact (load_precedence calm "" "" "" (db_with_row "ollama") mirror_anthropic
           eq_refl eq_refl eq_refl).
Defined.

(** ** Switching the provider *)

(** [updateSettingsFile] never throws: it leaves the object, the store and
    the request log alone, and what goes wrong goes to the console. *)
Lemma updateSettingsFile_spec p env s :
  exists f' lines,
    updateSettingsFile p env s =
      (Ok tt, mkState (this s) (db s) f' (requests s) (console s ++ lines)) /\
    (lines = [] \/
     exists e, lines = ["Failed to update settings file: " ++ error_message e]).
Proof.
  unfold updateSettingsFile. run.
  destruct s as [o d f rq c]; simpl.
  destruct f as [e|[[servers|]]]; simpl.
  - eexists _, [_]. split; [reflexivity|]. right. by exists e.
  - destruct (servers !! server_name) as [entry|]; simpl.
    + destruct (write_error env) as [e|]; simpl.
      * eexists _, [_]. split; [reflexivity|]. right. by exists e.
      * eexists _, []. rewrite app_nil_r. split; [reflexivity|]. by left.
    + eexists _, []. rewrite app_nil_r. split; [reflexivity|]. by left.
  - eexists _, [_]. split; [reflexivity|]. right. by eexists (Error _).
Qed.

(** Membership of a literal in a list of literals that lacks it. *)
Ltac absurd_member H :=
  repeat (apply elem_of_cons in H as [H|H]; [discriminate|]);
  by apply elem_of_nil in H.

Lemma registered_truthy p : registered p -> falsy (Some p) = false.
Proof.
  unfold registered, validProviders. intros H. simpl.
  apply bool_decide_eq_false. intros ->. absurd_member H.
Qed.

(** The accepted case of [handleUseProvider]. *)
Lemma handleUseProvider_accepts args p env s :
  arg_provider args = Some p ->
  registered p ->
  db_error env UpdateProvider = None ->
  exists f' lines,
    handleUseProvider args env s =
      (Ok (Text ("Now using " ++ p ++ " as the LLM provider (saved to settings)")),
       mkState (set_currentProvider p (this s))
         (update_setting "current_provider" p (db s))
         f' (requests s) (console s ++ lines)) /\
    (lines = [] \/
     exists e, lines = ["Failed to update settings file: " ++ error_message e]).
Proof.
  intros Ha Hp Hdb. unfold handleUseProvider. rewrite Ha.
  rewrite (registered_truthy _ Hp). simpl.
  rewrite bool_decide_eq_true_2 by exact Hp. simpl.
  unfold bind at 1. unfold modify at 1.
  unfold bind at 1. unfold db_run at 1. rewrite Hdb.
  unfold bind at 1.
  destruct (updateSettingsFile_spec p env
              (set_db (update_setting "current_provider" p)
                 (set_this (set_currentProvider p) s)))
    as (f' & lines & -> & Hlines).
  exists f', lines. split; [reflexivity|exact Hlines].
Qed.

(** The rejected cases of [handleUseProvider]: nothing is touched. *)
Lemma handleUseProvider_rejects args env s :
  (forall p, arg_provider args = Some p -> ~ registered p) ->
  exists msg,
    handleUseProvider args env s = (Throw (McpError InvalidParams msg), s).
Proof.
  intros Hp. unfold handleUseProvider.
  destruct (falsy (arg_provider args)) eqn:F.
  - eexists. reflexivity.
  - destruct (arg_provider args) as [p|]; [|discriminate]. simpl.
    rewrite bool_decide_eq_false_2 by (by apply Hp). simpl.
    eexists. reflexivity.
Qed.

(** A call of [handleUseProvider] that returns was an accepted one. *)
Lemma handleUseProvider_returns args env s r s' :
  handleUseProvider args env s = (Ok r, s') ->
  exists p, arg_provider args = Some p /\ registered p /\
            db_error env UpdateProvider = None.
Proof.
  intros Hrun.
  destruct (arg_provider args) as [p|] eqn:Ha.
  - destruct (decide (registered p)) as [Hp|Hp].
    + exists p. repeat split; [done|].
      unfold handleUseProvider in Hrun. rewrite Ha in Hrun.
      rewrite (registered_truthy _ Hp) in Hrun. simpl in Hrun.
      rewrite bool_decide_eq_true_2 in Hrun by exact Hp. simpl in Hrun.
      unfold bind at 1 in Hrun. unfold modify at 1 in Hrun.
      unfold bind at 1 in Hrun. unfold db_run at 1 in Hrun.
      destruct (db_error env UpdateProvider); [discriminate|done].
    + destruct (handleUseProvider_rejects args env s) as [msg Hr].
      { intros q Hq. rewrite Ha in Hq. by injection Hq as <-. }
      rewrite Hr in Hrun. discriminate.
  - destruct (handleUseProvider_rejects args env s) as [msg Hr].
    { intros q Hq. rewrite Ha in Hq. discriminate. }
    rewrite Hr in Hrun. discriminate.
Qed.

(** C8: for every identifier that is not one of the four registered
    providers, [use_provider] fails with an invalid-params error and the
    whole state is as before: the in-memory provider, the durable settings
    row and the settings file are untouched. *)
Theorem use_provider_unregistered args p env s :
  arg_provider args = Some p ->
  ~ registered p ->
  exists msg,
    handleUseProvider args env s = (Throw (McpError InvalidParams msg), s) /\
    call_tool "use_provider" args env s = (Throw (McpError InvalidParams msg), s).
Proof.
  intros Ha Hp.
  destruct (handleUseProvider_rejects args env s) as [msg Hr].
  { intros q Hq. rewrite Ha in Hq. by injection Hq as <-. }
  exists msg. split; [exact Hr|]. exact Hr.
Qed.

(** The identifier chatgpt is refused and nothing changes. *)
Lemma use_provider_unregistered_witness :
  arg_provider chatgpt_args = Some "chatgpt" /\
  ~ registered "chatgpt" /\
  exists msg,
    handleUseProvider chatgpt_args calm
      (new_process "" "" "" (db_with_row "openai") mirror_anthropic)
    = (Throw (McpError InvalidParams msg),
       new_process "" "" "" (db_with_row "openai") mirror_anthropic) /\
    call_tool "use_provider" chatgpt_args calm
      (new_process "" "" "" (db_with_row "openai") mirror_anthropic)
    = (Throw (McpError InvalidParams msg),
       new_process "" "" "" (db_with_row "openai") mirror_anthropic).
Proof.
  assert (Hn : ~ registered "chatgpt").
  { unfold registered, validProviders. intros H. absurd_member H. }
  split; [reflexivity|]. split; [exact Hn|].
  exact (use_provider_unregistered chatgpt_args "chatgpt" calm _ eq_refl Hn).
Defined.

(** C9: the provider written by a successful [use_provider] in a started
    process is the one the next process starts with when the settings file
    cannot be read; in particular for ollama. *)
Theorem provider_survives_restart
  env0 env1 env2 k1 k2 k3 k1' k2' k3' d0 f0 s1 args p r s2 e :
  initializeDatabase env0 (new_process k1 k2 k3 d0 f0) = (Ok tt, s1) ->
  arg_provider args = Some p ->
  handleUseProvider args env1 s1 = (Ok r, s2) ->
  db_error env2 CreateSettings = None ->
  db_error env2 SelectProvider = None ->
  exists s3,
    initializeDatabase env2 (new_process k1' k2' k3' (db s2) (ReadFails e))
      = (Ok tt, s3) /\
    currentProvider (this s3) = p.
Proof.
  intros Hstart Ha Hswitch Hc Hs.
  destruct (start_resolves _ _ _ _ _ _ _ Hstart) as [_ Hrow].
  destruct (handleUseProvider_returns _ _ _ _ _ Hswitch) as (q & Hq & Hreg & Hdb).
  rewrite Ha in Hq. injection Hq as <-.
  destruct (handleUseProvider_accepts args p env1 s1 Ha Hreg Hdb)
    as (f' & lines & Hrun & _).
  rewrite Hswitch in Hrun. injection Hrun as _ ->. simpl.
  assert (Hrow2 : provider_row (update_setting "current_provider" p (db s1)) = Some p).
  { unfold provider_row, update_setting in *. simpl.
    rewrite lookup_alter_eq, Hrow. reflexivity. }
  destruct (initializeDatabase_spec env2
              (new_process k1' k2' k3'
                 (update_setting "current_provider" p (db s1)) (ReadFails e))
              Hc Hs) as (s3 & Hrun3 & _ & _ & Hres).
  { simpl. rewrite Hrow2. discriminate. }
  simpl in Hres. rewrite Hrow2 in Hres.
  exists s3. split; [exact Hrun3|]. apply Hres.
Qed.

(** First start on an empty store, switch to ollama, start again. *)
Lemma provider_survives_restart_witness :
  exists s1 s2 r,
    initializeDatabase calm (new_process "" "" "" (mkDb [] 0 ∅) (ReadFails no_file))
      = (Ok tt, s1) /\
    arg_provider ollama_args = Some "ollama" /\
    handleUseProvider ollama_args calm s1 = (Ok r, s2) /\
    db_error calm CreateSettings = None /\
    db_error calm SelectProvider = None /\
    exists s3,
      initializeDatabase calm (new_process "" "" "" (db s2) (ReadFails no_file))
        = (Ok tt, s3) /\
      currentProvider (this s3) = "ollama".
Proof.
  eexists _, _, _.
  split; [vm_compute; reflexivity|]. split; [reflexivity|].
  split; [vm_compute; reflexivity|]. split; [reflexivity|]. split; [reflexivity|].
  eapply (provider_survives_restart calm calm calm "" "" "" "" "" ""
            (mkDb [] 0 ∅) (ReadFails no_file) _ ollama_args "ollama").
  - vm_compute; reflexivity.
  - reflexivity.
  - vm_compute; reflexivity.
  - reflexivity.
  - reflexivity.
Defined.

(** ** The provider invariant *)

Lemma handleGetMemory_same_provider args :
  keeps same_provider (handleGetMemory args).
Proof.
  unfold handleGetMemory.
  frame same_provider_refl same_provider_trans; intros; reflexivity.
Qed.

Lemma handleClearMemory_same_provider : keeps same_provider handleClearMemory.
Proof.
  unfold handleClearMemory.
  frame same_provider_refl same_provider_trans; intros; reflexivity.
Qed.

Lemma handleUseModel_same_provider args :
  keeps same_provider (handleUseModel args).
Proof.
  unfold handleUseModel, validate_model, check_ollama_model, record_model.
  frame same_provider_refl same_provider_trans; intros; reflexivity.
Qed.

(** Every tool call keeps a registered current provider registered. *)
Lemma call_tool_registered name args env s :
  registered (currentProvider (this s)) ->
  registered (currentProvider (this (snd (call_tool name args env s)))).
Proof.
  intros Hreg. unfold call_tool.
  repeat case_decide.
  - by rewrite handleChat_same_provider.
  - by rewrite handleGetMemory_same_provider.
  - by rewrite handleClearMemory_same_provider.
  - destruct (handleUseProvider args env s) as [[r|e] s'] eqn:Hrun.
    + destruct (handleUseProvider_returns _ _ _ _ _ Hrun) as (p & Ha & Hp & Hdb).
      destruct (handleUseProvider_accepts args p env s Ha Hp Hdb)
        as (f' & lines & Hrun' & _).
      rewrite Hrun in Hrun'. injection Hrun' as _ ->. exact Hp.
    + destruct (arg_provider args) as [p|] eqn:Ha.
      * destruct (decide (registered p)) as [Hp|Hp].
        -- unfold handleUseProvider in Hrun. rewrite Ha in Hrun.
           rewrite (registered_truthy _ Hp) in Hrun. simpl in Hrun.
           rewrite bool_decide_eq_true_2 in Hrun by exact Hp. simpl in Hrun.
           unfold bind at 1 in Hrun. unfold modify at 1 in Hrun.
           unfold bind at 1 in Hrun. unfold db_run at 1 in Hrun.
           destruct (db_error env UpdateProvider).
           ++ injection Hrun as _ <-. exact Hp.
           ++ unfold bind at 1 in Hrun.
              destruct (updateSettingsFile_spec p env
                          (set_db (update_setting "current_provider" p)
                             (set_this (set_currentProvider p) s)))
                as (f' & lines & Hu & _).
              rewrite Hu in Hrun. discriminate.
        -- destruct (handleUseProvider_rejects args env s) as [msg Hr].
           { intros q Hq. rewrite Ha in Hq. by injection Hq as <-. }
           rewrite Hr in Hrun. injection Hrun as _ <-. exact Hreg.
      * destruct (handleUseProvider_rejects args env s) as [msg Hr].
        { intros q Hq. rewrite Ha in Hq. discriminate. }
        rewrite Hr in Hrun. injection Hrun as _ <-. exact Hreg.
  - by rewrite handleUseModel_same_provider.
  - exact Hreg.
Qed.

(** C6, as stated, fails: with a row that holds an unregistered identifier
    and no readable settings file, the process starts with that
    identifier. *)
Lemma load_unregistered_counterexample :
  fst (initializeDatabase calm
         (new_process "" "" "" (db_with_row "chatgpt") (ReadFails no_file)))
    = Ok tt /\
  ~ registered
      (currentProvider
         (this (snd (initializeDatabase calm
                       (new_process "" "" "" (db_with_row "chatgpt")
                          (ReadFails no_file)))))).
Proof.
  split; [vm_compute; reflexivity|].
  replace (currentProvider _) with "chatgpt" by (vm_compute; reflexivity).
  unfold registered, validProviders. intros H. absurd_member H.
Qed.

(** C6 (amended): start-up takes the provider from the row, else from the
    settings file, else openai, without checking it; when that value is one
    of the four registered identifiers, the current provider is registered
    after start-up and in every state the process reaches through tool
    calls. *)
Theorem provider_registered_invariant env k1 k2 k3 d f s0 s :
  initializeDatabase env (new_process k1 k2 k3 d f) = (Ok tt, s0) ->
  registered (resolved_provider d f) ->
  reaches s0 s ->
  currentProvider (this s0) = resolved_provider d f /\
  registered (currentProvider (this s)).
Proof.
  intros Hstart Hreg Hreach.
  destruct (start_resolves _ _ _ _ _ _ _ Hstart) as [Hcp _].
  split; [exact Hcp|].
  induction Hreach as [|s name args env' Hreach IH].
  - by rewrite Hcp.
  - by apply call_tool_registered.
Qed.

(** A start on a row that holds ollama, then one chat call. *)
Lemma provider_registered_invariant_witness :
  exists s0,
    initializeDatabase calm
      (new_process "sk-1" "" "" (db_with_row "ollama") mirror_anthropic)
      = (Ok tt, s0) /\
    registered (resolved_provider (db_with_row "ollama") mirror_anthropic) /\
    reaches s0 (snd (call_tool "chat" hello_args calm s0)) /\
    currentProvider (this s0)
      = resolved_provider (db_with_row "ollama") mirror_anthropic /\
    registered
      (currentProvider (this (snd (call_tool "chat" hello_args calm s0)))).
Proof.
  eexists.
  assert (Hreg : registered (resolved_provider (db_with_row "ollama") mirror_anthropic)).
  { replace (resolved_provider _ _) with "ollama" by (vm_compute; reflexivity).
    unfold registered, validProviders.
    repeat first [apply list_elem_of_here | apply list_elem_of_further]. }
  split; [vm_compute; reflexivity|]. split; [exact Hreg|].
  split; [apply reaches_call, reaches_start|].
  eapply (provider_registered_invariant calm "sk-1" "" ""
            (db_with_row "ollama") mirror_anthropic).
  - vm_compute; reflexivity.
  - exact Hreg.
  - apply reaches_call, reaches_start.
Defined.

(** ** Chat *)

Lemma only_requests_refl s : only_requests s s.
Proof. by repeat split. Qed.

Lemma only_requests_trans s1 s2 s3 :
  only_requests s1 s2 -> only_requests s2 s3 -> only_requests s1 s3.
Proof. unfold only_requests. intuition congruence. Qed.

(** Asking a backend changes neither the object nor the store. *)
Lemma query_provider_only_requests p args message :
  keeps only_requests (query_provider p args message).
Proof.
  unfold query_provider, queryOpenAI, queryAnthropic, queryOpenRouter,
    queryOllama, check_ollama_model.
  frame only_requests_refl only_requests_trans; intros; by repeat split.
Qed.

(** [handleChat] once the backend has answered: the answer is returned
    after the insertion, or the insertion's failure is raised. *)
Lemma handleChat_after_answer env s args message text s1 :
  arg_message args = Some message ->
  message <> "" ->
  query_provider (currentProvider (this s)) args message env s = (Ok text, s1) ->
  match db_error env InsertMemory with
  | None =>
      exists s',
        handleChat args env s = (Ok (Text text), s') /\
        memory (db s') = (memory (db s) ++ [exchange env s message text])%list
  | Some e =>
      exists msg s',
        handleChat args env s = (Throw (McpError InternalError msg), s') /\
        memory (db s') = memory (db s)
  end.
Proof.
  intros Ha Hm Hq.
  pose proof (query_provider_only_requests (currentProvider (this s)) args
                message env s) as Hframe.
  rewrite Hq in Hframe. destruct Hframe as (Hthis & Hdb & _ & _). simpl in *.
  unfold handleChat. rewrite Ha. simpl.
  rewrite bool_decide_eq_false_2 by exact Hm.
  unfold storeMemory. run. rewrite Hq. simpl.
  destruct (db_error env InsertMemory) as [e|]; simpl.
  - eexists _, s1. split; [reflexivity|]. by rewrite Hdb.
  - eexists. split; [reflexivity|]. simpl.
    unfold exchange. by rewrite Hdb, Hthis.
Qed.

(** A chat call that returns had a backend answer and stored it. *)
Lemma handleChat_returns env s args r s' :
  handleChat args env s = (Ok r, s') ->
  exists message text s1,
    arg_message args = Some message /\ message <> "" /\
    query_provider (currentProvider (this s)) args message env s = (Ok text, s1) /\
    r = Text text /\
    memory (db s') = (memory (db s) ++ [exchange env s message text])%list.
Proof.
  intros Hrun.
  destruct (arg_message args) as [message|] eqn:Ha;
    [|unfold handleChat in Hrun; rewrite Ha in Hrun; discriminate].
  destruct (decide (message = "")) as [->|Hm];
    [unfold handleChat in Hrun; rewrite Ha in Hrun; discriminate|].
  destruct (query_provider (currentProvider (this s)) args message env s)
    as [[text|e] s1] eqn:Hq.
  - pose proof (handleChat_after_answer env s args message text s1 Ha Hm Hq) as H.
    destruct (db_error env InsertMemory) as [e|].
    + destruct H as (msg & s2 & Hr & _). rewrite Hr in Hrun. discriminate.
    + destruct H as (s2 & Hr & Hmem). rewrite Hr in Hrun.
      injection Hrun as <- <-. by exists message, text, s1.
  - unfold handleChat in Hrun. rewrite Ha in Hrun. simpl in Hrun.
    rewrite bool_decide_eq_false_2 in Hrun by exact Hm.
    unfold try_catch, bind, gets in Hrun. rewrite Hq in Hrun. discriminate.
Qed.

(** C4: when the backend call of a chat invocation succeeds, the call
    returns the backend's text only after exactly one Exchange (the prompt,
    that text, the current provider) was appended to the store; when the
    append fails the call fails with an error and the store is as before;
    and a call that returns has appended the Exchange of its response. *)
Theorem chat_response_has_exchange env s args :
  (forall message text s1,
     arg_message args = Some message ->
     message <> "" ->
     query_provider (currentProvider (this s)) args message env s = (Ok text, s1) ->
     match db_error env InsertMemory with
     | None =>
         exists s',
           handleChat args env s = (Ok (Text text), s') /\
           memory (db s') = (memory (db s) ++ [exchange env s message text])%list
     | Some e =>
         exists msg s',
           handleChat args env s = (Throw (McpError InternalError msg), s') /\
           memory (db s') = memory (db s)
     end) /\
  (forall r s',
     handleChat args env s = (Ok r, s') ->
     exists message text,
       arg_message args = Some message /\ r = Text text /\
       memory (db s') = (memory (db s) ++ [exchange env s message text])%list).
Proof.
  split.
  - intros message text s1. apply handleChat_after_answer.
  - intros r s' Hrun.
    destruct (handleChat_returns _ _ _ _ _ Hrun)
      as (message & text & s1 & Ha & _ & _ & Hr & Hmem).
    by exists message, text.
Qed.

(** One chat on openai: with a store that answers, and with a store that
    refuses the insertion. *)
Lemma chat_response_has_exchange_witness :
  arg_message hello_args = Some "hello" /\
  "hello" <> "" /\
  (exists s1,
     query_provider (currentProvider (this chatting)) hello_args "hello" calm chatting
       = (Ok "hello back", s1)) /\
  (exists s',
     handleChat hello_args calm chatting = (Ok (Text "hello back"), s') /\
     memory (db s') =
       (memory (db chatting) ++ [exchange calm chatting "hello" "hello back"])%list) /\
  (exists msg s',
     handleChat hello_args store_full chatting
       = (Throw (McpError InternalError msg), s') /\
     memory (db s') = memory (db chatting)).
Proof.
  split; [reflexivity|]. split; [discriminate|].
  split; [eexists; vm_compute; reflexivity|].
  split.
  - eapply (proj1 (chat_response_has_exchange calm chatting hello_args)
              "hello" "hello back").
    + reflexivity.
    + discriminate.
    + vm_compute; reflexivity.
  - eapply (proj1 (chat_response_has_exchange store_full chatting hello_args)
              "hello" "hello back").
    + reflexivity.
    + discriminate.
    + vm_compute; reflexivity.
Defined.

(** C7: a chat invocation while the current provider needs a key that is
    not configured always fails and leaves the whole state as it was, so no
    request was sent and no Exchange was added; when a message was given,
    the failure is the internal error that carries the
    key-not-configured message of that provider. *)
Theorem chat_without_secret env s args :
  secret_missing (this s) ->
  exists e,
    handleChat args env s = (Throw e, s) /\
    call_tool "chat" args env s = (Throw e, s) /\
    (falsy (arg_message args) = false ->
     e = McpError InternalError
           ("Error querying " ++ render (arg_provider args) ++ ": "
              ++ key_not_configured (currentProvider (this s)))).
Proof.
  intros Hmiss. change (call_tool "chat" args env s) with (handleChat args env s).
  unfold handleChat. destruct (falsy (arg_message args)) eqn:F.
  - eexists. repeat split. discriminate.
  - unfold query_provider, key_not_configured, queryOpenAI, queryAnthropic,
      queryOpenRouter. run.
    destruct Hmiss as [[-> Hk]|[[-> Hk]|[-> Hk]]]; simpl; rewrite Hk; simpl;
      eexists; repeat split.
Qed.

(** A chat on anthropic without a key. *)
Lemma chat_without_secret_witness :
  secret_missing (this keyless_started) /\
  exists e,
    handleChat hello_args calm keyless_started = (Throw e, keyless_started) /\
    call_tool "chat" hello_args calm keyless_started = (Throw e, keyless_started) /\
    (falsy (arg_message hello_args) = false ->
     e = McpError InternalError
           ("Error querying " ++ render (arg_provider hello_args) ++ ": "
              ++ key_not_configured (currentProvider (this keyless_started)))).
Proof.
  assert (H : secret_missing (this keyless_started)).
  { right. left. split; vm_compute; reflexivity. }
  split; [exact H|].
  exact (chat_without_secret calm keyless_started hello_args H).
Defined.

(** ** Switching the model *)

(** [includes "/"] holds exactly of the strings with a slash in them. *)
Lemma includes_slash m :
  includes "/" m = true <-> exists a b, m = a +:+ "/" +:+ b.
Proof.
  induction m as [|c m IH].
  - split; [discriminate|]. intros ([|? ?] & b & H); discriminate.
  - change (includes "/" (String c m))
      with (String.prefix "/" (String c m) || includes "/" m).
    change (String.prefix "/" (String c m))
      with (if ascii_dec "/" c then String.prefix "" m else false).
    destruct (ascii_dec "/" c) as [<-|Hc].
    + split; [intros _; by exists "", m | by destruct m].
    + rewrite orb_false_l, IH. split.
      * intros (a & b & ->). by exists (String c a), b.
      * intros ([|c' a] & b & H); simpl in H; injection H as -> ->; [done|].
        by exists a, b.
Qed.

(** Validation changes neither the object nor the store nor the file. *)
Lemma validate_model_only_requests p m :
  keeps only_requests (validate_model p m).
Proof.
  unfold validate_model, check_ollama_model.
  frame only_requests_refl only_requests_trans; intros; by repeat split.
Qed.

(** [handleUseModel] once validation has passed. *)
Lemma handleUseModel_after_validation env s args m s1 :
  arg_model args = Some m ->
  m <> "" ->
  validate_model (currentProvider (this s)) m env s = (Ok tt, s1) ->
  handleUseModel args env s =
    match record_model (currentProvider (this s)) m env (assign_model m s1) with
    | (Ok _, s') =>
        (Ok (Text ("Now using " ++ m ++ " with " ++ currentProvider (this s))), s')
    | (Throw e, s') =>
        (Throw (McpError InternalError
                  (or_else (error_message e) "Failed to set model")), s')
    end.
Proof.
  intros Ha Hm Hv.
  pose proof (validate_model_only_requests (currentProvider (this s)) m env s)
    as Hframe.
  rewrite Hv in Hframe. destruct Hframe as (Hthis & _). simpl in Hthis.
  unfold handleUseModel. rewrite Ha. simpl.
  rewrite bool_decide_eq_false_2 by exact Hm.
  unfold try_catch, bind, gets, modify, ret, throw. rewrite Hv. simpl.
  rewrite Hthis. fold (assign_model m s1).
  by destruct (record_model (currentProvider (this s)) m env (assign_model m s1))
    as [[[]|e] s'].
Qed.

(** [handleUseModel] when validation rejects. *)
Lemma handleUseModel_rejected env s args m e s1 :
  arg_model args = Some m ->
  m <> "" ->
  validate_model (currentProvider (this s)) m env s = (Throw e, s1) ->
  handleUseModel args env s =
    (Throw (McpError InternalError
              (or_else (error_message e) "Failed to set model")), s1).
Proof.
  intros Ha Hm Hv. unfold handleUseModel. rewrite Ha. simpl.
  rewrite bool_decide_eq_false_2 by exact Hm.
  unfold try_catch, bind, gets, throw. by rewrite Hv.
Qed.

(** [settings_update_throws] is exactly when [record_model] throws. *)
Lemma record_model_throws p m env s :
  settings_update_throws env (settingsFile s) ->
  exists e, record_model p m env s = (Throw e, s).
Proof.
  unfold settings_update_throws, record_model. run.
  destruct (settingsFile s) as [e|[[servers|]]]; simpl.
  - intros _. by exists e.
  - intros [[entry ->] [e ->]]. by exists e.
  - intros _. by eexists.
Qed.

Lemma record_model_returns p m env s :
  ~ settings_update_throws env (settingsFile s) ->
  exists s', record_model p m env s = (Ok tt, s').
Proof.
  unfold settings_update_throws, record_model. run.
  destruct (settingsFile s) as [e|[[servers|]]]; simpl; [by intros []| |by intros []].
  destruct (servers !! server_name) as [entry|]; [|by eexists].
  destruct (write_error env) as [e|]; [|by eexists].
  intros H. destruct H. split; by eexists.
Qed.

(** C10: [use_model] assigns the in-memory model before it reads and
    rewrites the settings file; whenever validation passes and that read or
    write throws, the call reports an internal error although the current
    model of the current provider is already the new one. *)
Theorem use_model_not_atomic env s args m s1 :
  arg_model args = Some m ->
  m <> "" ->
  validate_model (currentProvider (this s)) m env s = (Ok tt, s1) ->
  settings_update_throws env (settingsFile s) ->
  exists msg s',
    handleUseModel args env s = (Throw (McpError InternalError msg), s') /\
    currentProvider (this s') = currentProvider (this s) /\
    currentModel (this s') !! currentProvider (this s') = Some m.
Proof.
  intros Ha Hm Hv Hthrows.
  pose proof (validate_model_only_requests (currentProvider (this s)) m env s)
    as Hframe.
  rewrite Hv in Hframe. destruct Hframe as (Hthis & _ & Hfile & _).
  simpl in Hthis, Hfile.
  rewrite (handleUseModel_after_validation env s args m s1 Ha Hm Hv).
  destruct (record_model_throws (currentProvider (this s)) m env (assign_model m s1))
    as [e ->].
  { simpl. by rewrite Hfile. }
  eexists _, _. split; [reflexivity|]. simpl. rewrite Hthis.
  split; [reflexivity|]. apply lookup_insert_eq.
Qed.

(** On openai, with an accepted model and a settings file that cannot be
    read: the call fails and the model has changed from its default. *)
Lemma use_model_not_atomic_witness :
  arg_model gpt4o_args = Some "gpt-4o" /\
  "gpt-4o" <> "" /\
  validate_model (currentProvider (this chatting)) "gpt-4o" calm chatting
    = (Ok tt, chatting) /\
  settings_update_throws calm (settingsFile chatting) /\
  currentModel (this chatting) !! "openai" = Some "gpt-3.5-turbo" /\
  exists msg s',
    handleUseModel gpt4o_args calm chatting
      = (Throw (McpError InternalError msg), s') /\
    currentProvider (this s') = currentProvider (this chatting) /\
    currentModel (this s') !! currentProvider (this s') = Some "gpt-4o".
Proof.
  split; [reflexivity|]. split; [discriminate|].
  split; [vm_compute; reflexivity|]. split; [exact I|].
  split; [vm_compute; reflexivity|].
  eapply (use_model_not_atomic calm chatting gpt4o_args "gpt-4o" chatting).
  - reflexivity.
  - discriminate.
  - vm_compute; reflexivity.
  - exact I.
Defined.

(** C2, at a failing input: the settings file cannot be read.  Switching
    the provider returns and logs the failure; switching the model, with a
    model that passes validation, raises the file's error as an internal
    error. *)
Theorem use_model_raises_settings_failure :
  settingsFile chatting = ReadFails no_file /\
  (exists s',
     handleUseProvider ollama_args calm chatting
       = (Ok (Text "Now using ollama as the LLM provider (saved to settings)"), s') /\
     console s' = ["Failed to update settings file: no such file or directory"]) /\
  validate_model (currentProvider (this chatting)) "gpt-4o" calm chatting
    = (Ok tt, chatting) /\
  fst (handleUseModel gpt4o_args calm chatting)
    = Throw (McpError InternalError "no such file or directory").
Proof.
  split; [reflexivity|]. split.
  - eexists. split; vm_compute; reflexivity.
  - split; vm_compute; reflexivity.
Qed.

(** The half of C2 that the code keeps: once the provider is accepted and
    the row is updated, [use_provider] returns whatever happens to the
    settings file, and a failure there is one console line. *)
Lemma use_provider_ignores_settings_failure args p env s :
  arg_provider args = Some p ->
  registered p ->
  db_error env UpdateProvider = None ->
  exists r s',
    handleUseProvider args env s = (Ok r, s') /\
    provider_row (db s') = (fun _ => p) <$> provider_row (db s) /\
    (console s' = console s \/
     exists e, console s' =
       (console s ++ ["Failed to update settings file: " +:+ error_message e])%list).
Proof.
  intros Ha Hp Hdb.
  destruct (handleUseProvider_accepts args p env s Ha Hp Hdb)
    as (f' & lines & Hrun & Hlines).
  eexists _, _. split; [exact Hrun|]. simpl. split.
  - unfold provider_row, update_setting. simpl. apply lookup_alter_eq.
  - destruct Hlines as [->|[e ->]]; [left; apply app_nil_r|right; by exists e].
Qed.

(** ** Rejected models *)

Lemma existsb_name (m : string) (names : list string) :
  m ∉ names -> existsb (fun n => bool_decide (Some n = Some m)) names = false.
Proof.
  induction names as [|n names IH]; intros Hm; [reflexivity|]. simpl.
  rewrite IH by (intros H; apply Hm; by apply list_elem_of_further).
  rewrite bool_decide_eq_false_2; [reflexivity|].
  intros [= ->]. apply Hm. apply list_elem_of_here.
Qed.

(** C5, at a failing input: on openai, a model outside the closed list is
    rejected with the message that lists the valid models, but the error
    that reaches the caller is an internal error, not an invalid-params
    error.  The other argument checks report invalid-params: the check of
    the same handler for a missing model, and the check of [use_provider]
    for an unregistered provider. *)
Theorem use_model_rejection_reported_internal :
  currentProvider (this chatting) = "openai" /\
  ("gpt-5" ∉ openaiModels) /\
  handleUseModel gpt5_args calm chatting =
    (Throw (McpError InternalError
              "Invalid OpenAI model. Available models: gpt-4o, gpt-4o-mini, gpt-4-turbo"),
     chatting) /\
  (forall msg,
     fst (handleUseModel gpt5_args calm chatting)
       <> Throw (McpError InvalidParams msg)) /\
  handleUseModel empty_model_args calm chatting =
    (Throw (McpError InvalidParams "Missing required parameter: model"),
     chatting) /\
  handleUseProvider chatgpt_args calm chatting =
    (Throw (McpError InvalidParams
              "Invalid provider. Must be one of: openai, anthropic, openrouter, ollama"),
     chatting).
Proof.
  split; [reflexivity|]. split.
  { unfold openaiModels. intros H. absurd_member H. }
  split; [vm_compute; reflexivity|]. split.
  { intros msg. vm_compute. discriminate. }
  split; vm_compute; reflexivity.
Qed.

(** What the handler does with a model that fails validation, for every
    state and outside world: the rule of the current provider decides, the
    message is the one of that rule, the error that is thrown is the
    internal error of the catch-all, and the in-memory models are as they
    were. *)
Lemma use_model_rejections env s args m :
  arg_model args = Some m ->
  m <> "" ->
  (currentProvider (this s) = "openai" -> m ∉ openaiModels ->
   handleUseModel args env s =
     (Throw (McpError InternalError
               ("Invalid OpenAI model. Available models: " +:+ join openaiModels)),
      s)) /\
  (currentProvider (this s) = "anthropic" -> m ∉ anthropicModels ->
   handleUseModel args env s =
     (Throw (McpError InternalError
               ("Invalid Anthropic model. Available models: "
                  +:+ join anthropicModels)),
      s)) /\
  (currentProvider (this s) = "openrouter" -> includes "/" m = false ->
   handleUseModel args env s =
     (Throw (McpError InternalError openrouter_format), s)) /\
  (currentProvider (this s) = "ollama" ->
   forall names, get_tags env = TagsReturns names -> m ∉ names ->
   handleUseModel args env s =
     (Throw (McpError InternalError
               ("Model " +:+ m +:+ " not found. Available models: "
                  +:+ join names)),
      log_request ollama_tags_url s)).
Proof.
  intros Ha Hm. repeat split.
  - intros Hp Hout.
    rewrite (handleUseModel_rejected env s args m
               (Error ("Invalid OpenAI model. Available models: "
                         +:+ join openaiModels)) s Ha Hm); [reflexivity|].
    rewrite Hp. unfold validate_model. simpl.
    by rewrite bool_decide_eq_false_2.
  - intros Hp Hout.
    rewrite (handleUseModel_rejected env s args m
               (Error ("Invalid Anthropic model. Available models: "
                         +:+ join anthropicModels)) s Ha Hm); [reflexivity|].
    rewrite Hp. unfold validate_model. simpl.
    by rewrite bool_decide_eq_false_2.
  - intros Hp Hout.
    rewrite (handleUseModel_rejected env s args m (Error openrouter_format) s
               Ha Hm); [reflexivity|].
    rewrite Hp. unfold validate_model. simpl. by rewrite Hout.
  - intros Hp names Htags Hout.
    rewrite (handleUseModel_rejected env s args m
               (Error ("Model " +:+ m +:+ " not found. Available models: "
                         +:+ join names))
               (log_request ollama_tags_url s) Ha Hm); [reflexivity|].
    rewrite Hp. unfold validate_model, check_ollama_model, axios_get_tags.
    simpl. unfold try_catch, bind, throw. rewrite Htags.
    by rewrite (existsb_name m names Hout).
Qed.

(** On ollama, a model that the live list lacks. *)
Lemma use_model_rejections_witness :
  arg_model gpt5_args = Some "gpt-5" /\
  "gpt-5" <> "" /\
  currentProvider (this on_ollama) = "ollama" /\
  get_tags calm = TagsReturns ["llama3.3:latest"] /\
  ("gpt-5" ∉ ["llama3.3:latest"]) /\
  handleUseModel gpt5_args calm on_ollama =
    (Throw (McpError InternalError
              "Model gpt-5 not found. Available models: llama3.3:latest"),
     log_request ollama_tags_url on_ollama).
Proof.
  assert (Hout : "gpt-5" ∉ ["llama3.3:latest"]).
  { intros H. absurd_member H. }
  split; [reflexivity|]. split; [discriminate|].
  split; [vm_compute; reflexivity|]. split; [reflexivity|]. split; [exact Hout|].
  refine (proj2 (proj2 (proj2
            (use_model_rejections calm on_ollama gpt5_args "gpt-5" eq_refl _)))
            _ ["llama3.3:latest"] eq_refl Hout).
  - discriminate.
  - vm_compute; reflexivity.
Defined.

(** ** Reading the memory *)

Lemma leb_iff a b :
  String.leb a b = true <-> a = b \/ String_as_OT.lt a b.
Proof.
  unfold String.leb. rewrite <- String_as_OT.cmp_lt, <- String_as_OT.cmp_eq.
  unfold String_as_OT.cmp. destruct (String.compare a b); intuition discriminate.
Qed.

Lemma leb_trans a b c :
  String.leb a b = true -> String.leb b c = true -> String.leb a c = true.
Proof.
  rewrite !leb_iff. intros [->|Hab] [->|Hbc]; auto.
  right. eapply String_as_OT.lt_trans; eauto.
Qed.

Lemma not_older_trans a b c : not_older a b -> not_older b c -> not_older a c.
Proof. unfold not_older. intros Hab Hbc. eapply leb_trans; eauto. Qed.

Lemma insert_desc_perm m rows : Permutation (insert_desc m rows) (m :: rows).
Proof.
  induction rows as [|r rows IH]; simpl; [reflexivity|].
  destruct (String.leb (timestamp r) (timestamp m)); [reflexivity|].
  rewrite IH. apply perm_swap.
Qed.

Lemma insert_desc_sorted m rows :
  newest_first rows -> newest_first (insert_desc m rows).
Proof.
  unfold newest_first. induction 1 as [|r rows Hs IH Hr]; simpl.
  - repeat constructor.
  - destruct (String.leb (timestamp r) (timestamp m)) eqn:Hle.
    + constructor; [by constructor|]. constructor; [exact Hle|].
      eapply Forall_impl; [exact Hr|]. intros x Hx.
      eapply not_older_trans; [exact Hle|exact Hx].
    + constructor; [exact IH|].
      rewrite insert_desc_perm. constructor; [|exact Hr].
      unfold not_older. destruct (String.leb_total (timestamp m) (timestamp r));
        congruence.
Qed.

(** The stable engine answers every table. *)
Lemma stable_order_by_answers table :
  Permutation (stable_order_by table) table /\
  newest_first (stable_order_by table).
Proof.
  induction table as [|m table [IHp IHs]]; simpl.
  - split; constructor.
  - split; [by rewrite insert_desc_perm, IHp|by apply insert_desc_sorted].
Qed.

Lemma newest_first_take n rows :
  newest_first rows -> newest_first (take n rows).
Proof.
  unfold newest_first. intros H. rewrite <- (take_drop n rows) in H.
  by apply StronglySorted_app_1_l in H.
Qed.

Lemma sql_limit_sorted n rows :
  newest_first rows -> newest_first (sql_limit n rows).
Proof.
  unfold sql_limit. destruct (n <? 0); [done|apply newest_first_take].
Qed.

Lemma sql_limit_length n (rows : list Memory) :
  0 < n -> Z.of_nat (length (sql_limit n rows)) <= n.
Proof.
  intros Hn. unfold sql_limit.
  destruct (Z.ltb_spec n 0); [lia|]. rewrite length_take. lia.
Qed.

(** C3, as stated, fails twice.  The query orders by timestamp only: an
    engine that keeps rows of one second in rowid order answers correctly,
    and then the older identifier comes first.  And a limit of 0 is
    replaced by 10, so more than 0 rows come back. *)
Lemma get_memory_counterexample :
  engine_answers calm (memory (db two_exchanges)) /\
  handleGetMemory (limit_args LimitNull) calm two_exchanges
    = (Ok (MemoryRows same_second), two_exchanges) /\
  ~ newest_first_then_id same_second /\
  handleGetMemory (limit_args (LimitNumber 0)) calm two_exchanges
    = (Ok (MemoryRows same_second), two_exchanges) /\
  ~ (Z.of_nat (length same_second) <= 0).
Proof.
  split; [apply stable_order_by_answers|].
  split; [vm_compute; reflexivity|]. split.
  { unfold newest_first_then_id, same_second. intros H.
    apply StronglySorted_inv in H as [_ H].
    apply Forall_cons in H as [[H|[_ H]] _]; simpl in H.
    - vm_compute in H. discriminate.
    - lia. }
  split; [vm_compute; reflexivity|]. simpl. lia.
Qed.

(** C3 (amended): on a store that answers and orders by timestamp,
    [get_memory] returns rows ordered by descending timestamp (rows with
    equal timestamps in whatever order the engine gives them): every stored
    Exchange when the limit is null, at most 10 when the limit is omitted,
    and at most [n] for a positive limit [n]. *)
Theorem get_memory_limit_and_order env s args :
  db_error env SelectMemory = None ->
  engine_answers env (memory (db s)) ->
  exists rows,
    handleGetMemory args env s = (Ok (MemoryRows rows), s) /\
    newest_first rows /\
    match arg_limit args with
    | LimitNull => Permutation rows (memory (db s))
    | LimitUndefined => (length rows <= 10)%nat
    | LimitNumber n => 0 < n -> Z.of_nat (length rows) <= n
    end.
Proof.
  intros Hdb [Hperm Hsorted]. unfold handleGetMemory. run. rewrite Hdb.
  eexists. split; [reflexivity|]. unfold select_memory, limit_param.
  destruct (arg_limit args) as [| |n].
  - split; [by apply sql_limit_sorted|].
    pose proof (sql_limit_length 10 (order_by_timestamp_desc env (memory (db s)))).
    lia.
  - split; [exact Hsorted|exact Hperm].
  - split; [by apply sql_limit_sorted|]. intros Hn.
    destruct (Z.eqb_spec n 0); [lia|]. by apply sql_limit_length.
Qed.

(** Two stored Exchanges and a limit of 1. *)
Lemma get_memory_limit_and_order_witness :
  db_error calm SelectMemory = None /\
  engine_answers calm (memory (db two_exchanges)) /\
  exists rows,
    handleGetMemory (limit_args (LimitNumber 1)) calm two_exchanges
      = (Ok (MemoryRows rows), two_exchanges) /\
    newest_first rows /\
    (0 < 1 -> Z.of_nat (length rows) <= 1).
Proof.
  split; [reflexivity|]. split; [apply stable_order_by_answers|].
  exact (get_memory_limit_and_order calm two_exchanges
           (limit_args (LimitNumber 1)) eq_refl
           (stable_order_by_answers (memory (db two_exchanges)))).
Defined.

(** ** What a start keeps, and what restarts see *)

Lemma same_keys_and_models_refl s : same_keys_and_models s s.
Proof. by repeat split. Qed.

Lemma same_keys_and_models_trans s1 s2 s3 :
  same_keys_and_models s1 s2 -> same_keys_and_models s2 s3 ->
  same_keys_and_models s1 s3.
Proof. unfold same_keys_and_models. intuition congruence. Qed.

Lemma initializeDatabase_same_keys_and_models :
  keeps same_keys_and_models initializeDatabase.
Proof.
  unfold initializeDatabase, readSettingsFile.
  frame same_keys_and_models_refl same_keys_and_models_trans;
    intros; by repeat split.
Qed.

(** X1: whatever the store and the settings file hold (a [models] map of
    this server included), and whether the start returns or throws, the
    process has the compiled-in model of every provider afterwards:
    [readSettingsFile] and [initializeDatabase] never read [models]. *)
Theorem start_resets_models env k1 k2 k3 d f :
  currentModel (this (snd (initializeDatabase env (new_process k1 k2 k3 d f))))
    = default_models /\
  default_models !! "openai" = Some "gpt-3.5-turbo" /\
  default_models !! "openrouter" = Some "openai/gpt-3.5-turbo" /\
  default_models !! "anthropic" = Some "claude-2" /\
  default_models !! "ollama" = Some "llama3.3:latest".
Proof.
  split.
  - destruct (initializeDatabase_same_keys_and_models env
                (new_process k1 k2 k3 d f)) as (_ & _ & _ & H).
    exact H.
  - repeat split; vm_compute; reflexivity.
Qed.

(** X2: when the settings row holds the in-memory provider, the next start
    on that store, on a store that answers, has the same provider whatever
    the settings file says by then, and leaves the store as it is. *)
Theorem restart_keeps_provider env k1 k2 k3 s f :
  row_in_sync s ->
  db_error env CreateSettings = None ->
  db_error env SelectProvider = None ->
  exists s',
    initializeDatabase env (new_process k1 k2 k3 (db s) f) = (Ok tt, s') /\
    currentProvider (this s') = currentProvider (this s) /\
    db s' = db s.
Proof.
  intros Hsync Hc Hs. unfold row_in_sync in Hsync.
  destruct (initializeDatabase_spec env (new_process k1 k2 k3 (db s) f) Hc Hs)
    as (s' & Hrun & _ & _ & Hres).
  { simpl. rewrite Hsync. discriminate. }
  simpl in Hres. rewrite Hsync in Hres.
  exists s'. split; [exact Hrun|]. exact Hres.
Qed.

(** The row holds openai, the settings file says anthropic by now. *)
Lemma restart_keeps_provider_witness :
  row_in_sync synced /\
  db_error calm CreateSettings = None /\
  db_error calm SelectProvider = None /\
  exists s',
    initializeDatabase calm (new_process "" "" "" (db synced) mirror_anthropic)
      = (Ok tt, s') /\
    currentProvider (this s') = currentProvider (this synced) /\
    db s' = db synced.
Proof.
  assert (H : row_in_sync synced) by (vm_compute; reflexivity).
  split; [exact H|]. split; [reflexivity|]. split; [reflexivity|].
  exact (restart_keeps_provider calm "" "" "" synced mirror_anthropic H
           eq_refl eq_refl).
Defined.

Lemma same_provider_and_row_refl s : same_provider_and_row s s.
Proof. by split. Qed.

Lemma same_provider_and_row_trans s1 s2 s3 :
  same_provider_and_row s1 s2 -> same_provider_and_row s2 s3 ->
  same_provider_and_row s1 s3.
Proof. unfold same_provider_and_row. intuition congruence. Qed.

(** Every handler but [handleUseProvider] leaves the provider and its row
    alone. *)
Lemma others_same_provider_and_row name args :
  name <> "use_provider" ->
  keeps same_provider_and_row (call_tool name args).
Proof.
  intros Hname. unfold call_tool.
  repeat case_decide; try congruence;
    unfold handleChat, query_provider, storeMemory, queryOpenAI, queryAnthropic,
      queryOpenRouter, queryOllama, handleGetMemory, handleClearMemory,
      handleUseModel, validate_model, record_model, check_ollama_model;
    frame same_provider_and_row_refl same_provider_and_row_trans;
    intros; split; reflexivity.
Qed.

(** [handleUseProvider] on a store that accepts the UPDATE keeps the row in
    step with the object. *)
Lemma handleUseProvider_in_sync args env s :
  db_error env UpdateProvider = None ->
  row_in_sync s ->
  row_in_sync (snd (handleUseProvider args env s)).
Proof.
  intros Hdb Hsync.
  destruct (arg_provider args) as [p|] eqn:Ha.
  - destruct (decide (registered p)) as [Hp|Hp].
    + destruct (handleUseProvider_accepts args p env s Ha Hp Hdb)
        as (f' & lines & -> & _).
      unfold row_in_sync, provider_row, update_setting in *. simpl.
      rewrite lookup_alter_eq, Hsync. reflexivity.
    + destruct (handleUseProvider_rejects args env s) as [msg ->]; [|exact Hsync].
      intros q Hq. rewrite Ha in Hq. by injection Hq as <-.
  - destruct (handleUseProvider_rejects args env s) as [msg ->]; [|exact Hsync].
    intros q Hq. rewrite Ha in Hq. discriminate.
Qed.

(** X3: a start that returns leaves the settings row equal to the in-memory
    provider, and every tool call keeps them equal as long as the store
    accepts the UPDATE of [use_provider]. *)
Theorem row_stays_in_sync env k1 k2 k3 d f s0 s :
  initializeDatabase env (new_process k1 k2 k3 d f) = (Ok tt, s0) ->
  reaches_updating s0 s ->
  row_in_sync s.
Proof.
  intros Hstart Hreach.
  destruct (start_resolves _ _ _ _ _ _ _ Hstart) as [Hcp Hrow].
  induction Hreach as [|s name args env' Hreach IH Hdb].
  - unfold row_in_sync. by rewrite Hrow, Hcp.
  - destruct (decide (name = "use_provider")) as [->|Hname].
    + by apply handleUseProvider_in_sync.
    + destruct (others_same_provider_and_row name args Hname env' s) as [H1 H2].
      unfold row_in_sync in *. by rewrite H1, H2.
Qed.

(** A first start on an empty store, then a switch to ollama. *)
Lemma row_stays_in_sync_witness :
  exists s0,
    initializeDatabase calm (new_process "" "" "" (mkDb [] 0 ∅) mirror_anthropic)
      = (Ok tt, s0) /\
    reaches_updating s0 (snd (call_tool "use_provider" ollama_args calm s0)) /\
    row_in_sync (snd (call_tool "use_provider" ollama_args calm s0)).
Proof.
  eexists. split; [vm_compute; reflexivity|].
  assert (Hr : reaches_updating
                 (snd (initializeDatabase calm
                         (new_process "" "" "" (mkDb [] 0 ∅) mirror_anthropic)))
                 (snd (call_tool "use_provider" ollama_args calm
                         (snd (initializeDatabase calm
                                 (new_process "" "" "" (mkDb [] 0 ∅)
                                    mirror_anthropic)))))).
  { apply reaches_updating_call; [apply reaches_updating_start|reflexivity]. }
  split; [exact Hr|].
  eapply (row_stays_in_sync calm "" "" "" (mkDb [] 0 ∅) mirror_anthropic);
    [vm_compute; reflexivity|exact Hr].
Defined.

(** X4: when the store refuses the UPDATE, [use_provider] with a registered
    identifier fails with the store's own error, after the in-memory
    provider was already assigned: the row, the settings file and the
    console are untouched. *)
Theorem use_provider_store_failure args p env s e :
  arg_provider args = Some p ->
  registered p ->
  db_error env UpdateProvider = Some e ->
  handleUseProvider args env s = (Throw e, set_this (set_currentProvider p) s) /\
  currentProvider (this (snd (handleUseProvider args env s))) = p /\
  db (snd (handleUseProvider args env s)) = db s /\
  settingsFile (snd (handleUseProvider args env s)) = settingsFile s.
Proof.
  intros Ha Hp Hdb.
  assert (H : handleUseProvider args env s
              = (Throw e, set_this (set_currentProvider p) s)).
  { unfold handleUseProvider. rewrite Ha, (registered_truthy _ Hp). simpl.
    rewrite bool_decide_eq_true_2 by exact Hp. simpl.
    unfold bind, modify, db_run. simpl. by rewrite Hdb. }
  rewrite H. by repeat split.
Qed.

(** A switch to ollama while the store is locked. *)
Lemma use_provider_store_failure_witness :
  arg_provider ollama_args = Some "ollama" /\
  registered "ollama" /\
  db_error store_locked UpdateProvider
    = Some (SystemError "SQLITE_BUSY" "database is locked") /\
  handleUseProvider ollama_args store_locked synced
    = (Throw (SystemError "SQLITE_BUSY" "database is locked"),
       set_this (set_currentProvider "ollama") synced) /\
  currentProvider (this (snd (handleUseProvider ollama_args store_locked synced)))
    = "ollama" /\
  db (snd (handleUseProvider ollama_args store_locked synced)) = db synced /\
  settingsFile (snd (handleUseProvider ollama_args store_locked synced))
    = settingsFile synced.
Proof.
  assert (Hreg : registered "ollama").
  { unfold registered, validProviders.
    repeat first [apply list_elem_of_here | apply list_elem_of_further]. }
  split; [reflexivity|]. split; [exact Hreg|]. split; [reflexivity|].
  exact (use_provider_store_failure ollama_args "ollama" store_locked synced _
           eq_refl Hreg eq_refl).
Defined.

(** ** What the switches write *)

(** X5: when [use_provider] is accepted, the store takes the UPDATE, and
    the settings file is readable, names this server and can be written,
    the file afterwards holds the same servers with [defaultProvider] of
    this server set to the new provider: its [models] and every other
    server are as before, and a later [readSettingsFile] would adopt the
    new provider. *)
Theorem use_provider_updates_settings_file args p env s doc servers entry :
  arg_provider args = Some p ->
  registered p ->
  db_error env UpdateProvider = None ->
  settingsFile s = Holds doc ->
  mcpServers doc = Some servers ->
  servers !! server_name = Some entry ->
  write_error env = None ->
  exists r s',
    handleUseProvider args env s = (Ok r, s') /\
    settingsFile s' =
      Holds (mkDoc (Some (<[server_name := mkEntry (Some p) (models entry)]> servers))) /\
    mirror_provider (settingsFile s') = Some p /\
    console s' = console s.
Proof.
  intros Ha Hp Hdb Hf Hm He Hw.
  unfold handleUseProvider. rewrite Ha, (registered_truthy _ Hp). simpl.
  rewrite bool_decide_eq_true_2 by exact Hp. simpl.
  unfold updateSettingsFile, with_server. run.
  rewrite Hdb. simpl. rewrite Hf. simpl. rewrite Hm. simpl. rewrite He, Hw. simpl.
  eexists _, _. split; [reflexivity|]. simpl. split; [reflexivity|].
  split; [|reflexivity].
  rewrite lookup_insert_eq. simpl.
  pose proof (registered_truthy _ Hp) as Ht. simpl in Ht. by rewrite Ht.
Qed.

Lemma use_provider_updates_settings_file_witness :
  arg_provider ollama_args = Some "ollama" /\
  registered "ollama" /\
  db_error calm UpdateProvider = None /\
  settingsFile synced_with_file = Holds (mkDoc (Some two_servers)) /\
  two_servers !! server_name
    = Some (mkEntry (Some "openai") (Some {[ "openai" := "gpt-4o" ]})) /\
  write_error calm = None /\
  exists r s',
    handleUseProvider ollama_args calm synced_with_file = (Ok r, s') /\
    settingsFile s' =
      Holds (mkDoc (Some (<[server_name :=
                              mkEntry (Some "ollama")
                                (Some {[ "openai" := "gpt-4o" ]})]> two_servers))) /\
    mirror_provider (settingsFile s') = Some "ollama" /\
    console s' = console synced_with_file.
Proof.
  assert (Hreg : registered "ollama").
  { unfold registered, validProviders.
    repeat first [apply list_elem_of_here | apply list_elem_of_further]. }
  split; [reflexivity|]. split; [exact Hreg|]. split; [reflexivity|].
  split; [reflexivity|]. split; [vm_compute; reflexivity|]. split; [reflexivity|].
  exact (use_provider_updates_settings_file ollama_args "ollama" calm
           synced_with_file (mkDoc (Some two_servers)) two_servers
           (mkEntry (Some "openai") (Some {[ "openai" := "gpt-4o" ]}))
           eq_refl Hreg eq_refl eq_refl eq_refl eq_refl eq_refl).
Defined.

(** X6: a settings file that is readable but does not name this server is
    never written: an accepted [use_provider] and a validated [use_model]
    both return, leave the file as it is, write nothing to the console, and
    do so even when the file could not be written. *)
Theorem unnamed_server_file_untouched env s doc servers :
  settingsFile s = Holds doc ->
  mcpServers doc = Some servers ->
  servers !! server_name = None ->
  (forall args p,
     arg_provider args = Some p -> registered p ->
     db_error env UpdateProvider = None ->
     exists r s',
       handleUseProvider args env s = (Ok r, s') /\
       settingsFile s' = settingsFile s /\ console s' = console s) /\
  (forall args m s1,
     arg_model args = Some m -> m <> "" ->
     validate_model (currentProvider (this s)) m env s = (Ok tt, s1) ->
     exists r s',
       handleUseModel args env s = (Ok r, s') /\
       settingsFile s' = settingsFile s /\ console s' = console s /\
       currentModel (this s') !! currentProvider (this s) = Some m).
Proof.
  intros Hf Hm He. split.
  - intros args p Ha Hp Hdb.
    unfold handleUseProvider. rewrite Ha, (registered_truthy _ Hp). simpl.
    rewrite bool_decide_eq_true_2 by exact Hp. simpl.
    unfold updateSettingsFile. run.
    rewrite Hdb. simpl. rewrite Hf. simpl. rewrite Hm. simpl. rewrite He. simpl.
    eexists _, _. split; [reflexivity|]. simpl. by rewrite Hf.
  - intros args m s1 Ha Hne Hv.
    pose proof (validate_model_only_requests (currentProvider (this s)) m env s)
      as Hframe.
    rewrite Hv in Hframe. destruct Hframe as (Hthis & _ & Hfile & Hcons).
    simpl in Hthis, Hfile, Hcons.
    rewrite (handleUseModel_after_validation env s args m s1 Ha Hne Hv).
    unfold record_model. run. rewrite Hfile, Hf. simpl. rewrite Hm. simpl.
    rewrite He. simpl.
    eexists _, _. split; [reflexivity|]. simpl.
    rewrite Hfile, Hcons, Hthis. repeat split; [by rewrite Hf|].
    apply lookup_insert_eq.
Qed.

Lemma unnamed_server_file_untouched_witness :
  settingsFile beside_other_server
    = Holds (mkDoc (Some {[ "filesystem" := mkEntry None None ]})) /\
  ({[ "filesystem" := mkEntry None None ]} : gmap string server_entry)
    !! server_name = None /\
  (exists r s',
     handleUseProvider ollama_args read_only_file beside_other_server = (Ok r, s') /\
     settingsFile s' = settingsFile beside_other_server /\
     console s' = console beside_other_server) /\
  (exists r s',
     handleUseModel gpt4o_args read_only_file beside_other_server = (Ok r, s') /\
     settingsFile s' = settingsFile beside_other_server /\
     console s' = console beside_other_server /\
     currentModel (this s') !! currentProvider (this beside_other_server)
       = Some "gpt-4o").
Proof.
  assert (Hreg : registered "ollama").
  { unfold registered, validProviders.
    repeat first [apply list_elem_of_here | apply list_elem_of_further]. }
  pose proof (unnamed_server_file_untouched read_only_file beside_other_server
                (mkDoc (Some {[ "filesystem" := mkEntry None None ]}))
                {[ "filesystem" := mkEntry None None ]}
                eq_refl eq_refl eq_refl) as [H1 H2].
  split; [reflexivity|]. split; [vm_compute; reflexivity|]. split.
  - exact (H1 ollama_args "ollama" eq_refl Hreg eq_refl).
  - refine (H2 gpt4o_args "gpt-4o" beside_other_server eq_refl _ _).
    + discriminate.
    + vm_compute; reflexivity.
Defined.

(** X7: when validation passes, the settings file is readable, names this
    server and can be written, [use_model] returns the confirmation for the
    model and the current provider, assigns the model in memory, and
    records it in the file under [models] of this server at the current
    provider: [defaultProvider], the other recorded models and the other
    servers are as before, and the store is untouched. *)
Theorem use_model_records env s args m s1 doc servers entry :
  arg_model args = Some m ->
  m <> "" ->
  validate_model (currentProvider (this s)) m env s = (Ok tt, s1) ->
  settingsFile s = Holds doc ->
  mcpServers doc = Some servers ->
  servers !! server_name = Some entry ->
  write_error env = None ->
  exists s',
    handleUseModel args env s =
      (Ok (Text ("Now using " +:+ m +:+ " with " +:+ currentProvider (this s))), s') /\
    currentModel (this s')
      = <[currentProvider (this s) := m]> (currentModel (this s)) /\
    settingsFile s' =
      Holds (mkDoc (Some (<[server_name :=
                 mkEntry (defaultProvider entry)
                   (Some (<[currentProvider (this s) := m]>
                            (default ∅ (models entry))))]> servers))) /\
    db s' = db s.
Proof.
  intros Ha Hne Hv Hf Hm He Hw.
  pose proof (validate_model_only_requests (currentProvider (this s)) m env s)
    as Hframe.
  rewrite Hv in Hframe. destruct Hframe as (Hthis & Hdb & Hfile & _).
  simpl in Hthis, Hdb, Hfile.
  rewrite (handleUseModel_after_validation env s args m s1 Ha Hne Hv).
  unfold record_model, with_server. run. rewrite Hfile, Hf. simpl.
  rewrite Hm. simpl. rewrite He, Hw. simpl.
  eexists. split; [reflexivity|]. simpl. rewrite Hthis, Hdb. by repeat split.
Qed.

Lemma use_model_records_witness :
  arg_model gpt4o_args = Some "gpt-4o" /\
  "gpt-4o" <> "" /\
  validate_model (currentProvider (this synced_with_file)) "gpt-4o" calm
    synced_with_file = (Ok tt, synced_with_file) /\
  settingsFile synced_with_file = Holds (mkDoc (Some two_servers)) /\
  two_servers !! server_name
    = Some (mkEntry (Some "openai") (Some {[ "openai" := "gpt-4o" ]})) /\
  write_error calm = None /\
  exists s',
    handleUseModel gpt4o_args calm synced_with_file =
      (Ok (Text "Now using gpt-4o with openai"), s') /\
    currentModel (this s')
      = <["openai" := "gpt-4o"]> (currentModel (this synced_with_file)) /\
    settingsFile s' =
      Holds (mkDoc (Some (<[server_name :=
                 mkEntry (Some "openai")
                   (Some (<["openai" := "gpt-4o"]> {[ "openai" := "gpt-4o" ]}))]>
                            two_servers))) /\
    db s' = db synced_with_file.
Proof.
  split; [reflexivity|]. split; [discriminate|].
  split; [vm_compute; reflexivity|]. split; [reflexivity|].
  split; [vm_compute; reflexivity|]. split; [reflexivity|].
  refine (use_model_records calm synced_with_file gpt4o_args "gpt-4o"
            synced_with_file (mkDoc (Some two_servers)) two_servers
            (mkEntry (Some "openai") (Some {[ "openai" := "gpt-4o" ]}))
            eq_refl _ _ eq_refl eq_refl _ eq_refl).
  - discriminate.
  - vm_compute; reflexivity.
  - vm_compute; reflexivity.
Defined.

Lemma existsb_name_true (m : string) (names : list string) :
  m ∈ names -> existsb (fun n => bool_decide (Some n = Some m)) names = true.
Proof.
  induction 1 as [m names|m n names Hin IH]; simpl.
  - by rewrite bool_decide_eq_true_2.
  - rewrite IH. apply orb_true_r.
Qed.

(** X8: with the local service answering its list of names, validation in
    [use_model] passes exactly for the models of the current provider's
    rule: a member of the closed list for openai and for anthropic, a
    string with a slash in it for openrouter, a listed name for ollama;
    and for no model at all when the current provider is unregistered. *)
Theorem validate_model_accepts_exactly env s p m names :
  get_tags env = TagsReturns names ->
  fst (validate_model p m env s) = Ok tt <-> model_accepted p m names.
Proof.
  intros Htags. unfold validate_model, model_accepted.
  destruct (decide (p = "openai")) as [->|H1].
  { destruct (bool_decide (m ∈ openaiModels)) eqn:Hb; simpl.
    - apply bool_decide_eq_true_1 in Hb. split; [by left|done].
    - apply bool_decide_eq_false_1 in Hb. split; [discriminate|].
      intros [[_ H]|[[H _]|[[H _]|[H _]]]]; done. }
  destruct (decide (p = "openrouter")) as [->|H2].
  { destruct (includes "/" m) eqn:Hb; simpl.
    - apply includes_slash in Hb. split; [by right; right; left|done].
    - split; [discriminate|].
      intros [[H _]|[[H _]|[[_ H]|[H _]]]]; try done.
      apply includes_slash in H. congruence. }
  destruct (decide (p = "ollama")) as [->|H3].
  { unfold check_ollama_model, axios_get_tags, try_catch, bind, ret, throw.
    rewrite Htags.
    destruct (decide (m ∈ names)) as [Hin|Hout].
    - rewrite (existsb_name_true m names Hin). simpl.
      split; [by right; right; right|done].
    - rewrite (existsb_name m names Hout). simpl. split; [discriminate|].
      intros [[H _]|[[H _]|[[H _]|[_ H]]]]; done. }
  destruct (decide (p = "anthropic")) as [->|H4].
  { destruct (bool_decide (m ∈ anthropicModels)) eqn:Hb; simpl.
    - apply bool_decide_eq_true_1 in Hb. split; [by right; left|done].
    - apply bool_decide_eq_false_1 in Hb. split; [discriminate|].
      intros [[H _]|[[_ H]|[[H _]|[H _]]]]; done. }
  simpl. split; [discriminate|].
  intros [[H _]|[[H _]|[[H _]|[H _]]]]; done.
Qed.

Lemma validate_model_accepts_exactly_witness :
  get_tags calm = TagsReturns ["llama3.3:latest"] /\
  (fst (validate_model "openrouter" "openai/gpt-4" calm synced) = Ok tt
   <-> model_accepted "openrouter" "openai/gpt-4" ["llama3.3:latest"]).
Proof.
  split; [reflexivity|].
  exact (validate_model_accepts_exactly calm synced "openrouter" "openai/gpt-4"
           ["llama3.3:latest"] eq_refl).
Defined.

(** ** The memory table *)

(** X9: [clear_memory] on a store that answers empties the table and keeps
    the identifier counter; [get_memory] then returns no rows whatever the
    limit, and a second [clear_memory] reports success again and changes
    nothing. *)
Theorem clear_memory_empties env1 env2 s args :
  db_error env1 DeleteMemory = None ->
  db_error env2 SelectMemory = None ->
  Permutation (order_by_timestamp_desc env2 []) [] ->
  exists s1,
    handleClearMemory env1 s = (Ok (Text "Memory cleared"), s1) /\
    memory (db s1) = [] /\
    memory_seq (db s1) = memory_seq (db s) /\
    settings (db s1) = settings (db s) /\
    handleGetMemory args env2 s1 = (Ok (MemoryRows []), s1) /\
    handleClearMemory env1 s1 = (Ok (Text "Memory cleared"), s1).
Proof.
  intros Hd Hs Hperm. apply Permutation_nil_r in Hperm.
  unfold handleClearMemory, handleGetMemory, select_memory. run.
  rewrite Hd, Hs. simpl.
  eexists. split; [reflexivity|]. simpl. repeat split.
  rewrite Hperm. unfold sql_limit.
  destruct (limit_param (arg_limit args)) as [n|];
    [destruct (n <? 0); [|rewrite take_nil]|]; reflexivity.
Qed.

Lemma clear_memory_empties_witness :
  db_error calm DeleteMemory = None /\
  db_error calm SelectMemory = None /\
  Permutation (order_by_timestamp_desc calm []) [] /\
  exists s1,
    handleClearMemory calm two_exchanges = (Ok (Text "Memory cleared"), s1) /\
    memory (db s1) = [] /\
    memory_seq (db s1) = memory_seq (db two_exchanges) /\
    settings (db s1) = settings (db two_exchanges) /\
    handleGetMemory (limit_args LimitNull) calm s1 = (Ok (MemoryRows []), s1) /\
    handleClearMemory calm s1 = (Ok (Text "Memory cleared"), s1).
Proof.
  split; [reflexivity|]. split; [reflexivity|]. split; [constructor|].
  exact (clear_memory_empties calm calm two_exchanges (limit_args LimitNull)
           eq_refl eq_refl (Permutation_refl [])).
Defined.

Lemma ids_kept_refl s : ids_kept s s.
Proof. split; [done|]. split; [lia|]. intros r Hr. by left. Qed.

Lemma ids_kept_trans s1 s2 s3 : ids_kept s1 s2 -> ids_kept s2 s3 -> ids_kept s1 s3.
Proof.
  intros (H1 & L1 & N1) (H2 & L2 & N2). split; [auto|]. split; [lia|].
  intros r Hr. destruct (N2 r Hr) as [Hr2|Hlt]; [|right; lia].
  apply (N1 r Hr2).
Qed.

Lemma insert_memory_ids_fresh t user p r prov d :
  ids_fresh d -> ids_fresh (insert_memory t user p r prov d).
Proof.
  intros [Hs Hb]. split; simpl.
  - apply StronglySorted_app. split; [|split; [exact Hs|repeat constructor]].
    intros a b Ha Hb'. apply list_elem_of_singleton in Hb' as ->. simpl.
    rewrite Forall_forall in Hb. specialize (Hb a Ha). lia.
  - apply Forall_app. split.
    + eapply Forall_impl; [exact Hb|]. simpl. intros; lia.
    + repeat constructor. simpl. lia.
Qed.

Lemma call_tool_ids_kept name args : keeps ids_kept (call_tool name args).
Proof.
  unfold call_tool.
  repeat case_decide;
    unfold handleChat, query_provider, storeMemory, queryOpenAI, queryAnthropic,
      queryOpenRouter, queryOllama, handleGetMemory, handleClearMemory,
      handleUseProvider, updateSettingsFile, handleUseModel, validate_model,
      record_model, check_ollama_model;
    frame ids_kept_refl ids_kept_trans; intros;
    (split; [intros Hf|split; [simpl; lia|simpl; intros x Hx]]);
    first [exact Hf | by apply insert_memory_ids_fresh | split; constructor
          | by left | by apply elem_of_nil in Hx
          | apply elem_of_app in Hx as [Hx|Hx];
            [by left|right; apply list_elem_of_singleton in Hx as ->; simpl; lia]].
Qed.

Lemma reaches_ids_kept s0 s : reaches s0 s -> ids_kept s0 s.
Proof.
  induction 1 as [|s name args env Hreach IH]; [apply ids_kept_refl|].
  eapply ids_kept_trans; [exact IH|apply call_tool_ids_kept].
Qed.

(** X10: an identifier is never given twice.  Identifiers come from a
    counter that no tool call lowers and that [clear_memory] does not
    reset: through every sequence of tool calls the stored identifiers stay
    distinct, and a row that is in the table later but was not there before
    has an identifier above the earlier counter, hence above the identifier
    of every row that was in the table then. *)
Theorem identifiers_never_reused s0 s1 s2 :
  ids_fresh (db s0) ->
  reaches s0 s1 ->
  reaches s1 s2 ->
  NoDup (map id (memory (db s2))) /\
  memory_seq (db s1) <= memory_seq (db s2) /\
  forall r2, r2 ∈ memory (db s2) ->
    r2 ∈ memory (db s1) \/
    (memory_seq (db s1) < id r2 /\
     forall r1, r1 ∈ memory (db s1) -> id r1 < id r2).
Proof.
  intros Hfresh H01 H12.
  destruct (reaches_ids_kept s0 s1 H01) as (F1 & _ & _).
  destruct (reaches_ids_kept s1 s2 H12) as (F2 & L2 & N2).
  specialize (F1 Hfresh). specialize (F2 F1).
  split; [|split; [exact L2|]].
  - destruct F2 as [Hs _]. revert Hs.
    generalize (memory (db s2)). intros rows.
    induction 1 as [|r rows Hs IH Hr]; simpl; constructor; [|exact IH].
    rewrite list_elem_of_fmap. intros (x & Hx & Hin).
    rewrite Forall_forall in Hr. specialize (Hr x Hin). lia.
  - intros r2 Hr2. destruct (N2 r2 Hr2) as [Hin|Hlt]; [by left|].
    right. split; [exact Hlt|]. intros r1 Hr1.
    destruct F1 as [_ Hb]. rewrite Forall_forall in Hb.
    specialize (Hb r1 Hr1). lia.
Qed.

Lemma identifiers_never_reused_witness :
  ids_fresh (db two_exchanges) /\
  reaches two_exchanges two_exchanges /\
  reaches two_exchanges (snd (call_tool "chat" hello_args calm cleared)) /\
  map id (memory (db two_exchanges)) = [1; 2] /\
  map id (memory (db (snd (call_tool "chat" hello_args calm cleared)))) = [3] /\
  NoDup (map id (memory (db (snd (call_tool "chat" hello_args calm cleared))))) /\
  memory_seq (db two_exchanges)
    <= memory_seq (db (snd (call_tool "chat" hello_args calm cleared))) /\
  forall r2, r2 ∈ memory (db (snd (call_tool "chat" hello_args calm cleared))) ->
    r2 ∈ memory (db two_exchanges) \/
    (memory_seq (db two_exchanges) < id r2 /\
     forall r1, r1 ∈ memory (db two_exchanges) -> id r1 < id r2).
Proof.
  assert (H : ids_fresh (db two_exchanges)).
  { split; simpl; unfold same_second; repeat constructor; simpl; lia. }
  assert (Hr : reaches two_exchanges (snd (call_tool "chat" hello_args calm cleared))).
  { apply reaches_call. unfold cleared. apply reaches_call, reaches_start. }
  split; [exact H|]. split; [apply reaches_start|]. split; [exact Hr|].
  split; [reflexivity|]. split; [vm_compute; reflexivity|].
  exact (identifiers_never_reused two_exchanges two_exchanges _ H
           (reaches_start _) Hr).
Defined.

Lemma take_length_take {A} n (l : list A) : take n l = take (length (take n l)) l.
Proof.
  rewrite length_take. destruct (Nat.le_ge_cases n (length l)).
  - by rewrite Nat.min_l.
  - rewrite Nat.min_r by done. by rewrite !take_ge.
Qed.

(** X11: on a store that answers with a permutation of the table, a
    [get_memory] request with an arguments object changes nothing and
    returns as many rows as the limit allows and the table has: all for
    null, [min 10] when the object has no limit, [min n] for a positive
    [n]; a limit of 0 counts as absent and a negative one as null.  The
    rows are the first ones of the unbounded answer.  A request without an
    arguments object does not default to 10: it fails with the TypeError of
    reading [limit] of undefined, and changes nothing. *)
Theorem get_memory_count env s a :
  db_error env SelectMemory = None ->
  Permutation (order_by_timestamp_desc env (memory (db s))) (memory (db s)) ->
  match a with
  | Some args =>
      exists rows,
        call_tool_request "get_memory" (Some args) env s
          = (Ok (MemoryRows rows), s) /\
        length rows = rows_returned (arg_limit args) (length (memory (db s))) /\
        rows = take (length rows) (order_by_timestamp_desc env (memory (db s)))
  | None =>
      call_tool_request "get_memory" None env s
        = (Throw (reading_undefined "limit"), s)
  end.
Proof.
  intros Hdb Hperm. destruct a as [args|]; [|reflexivity].
  change (call_tool_request "get_memory" (Some args) env s)
    with (handleGetMemory args env s).
  unfold handleGetMemory. run. rewrite Hdb.
  eexists. split; [reflexivity|].
  apply Permutation_length in Hperm. rewrite <- Hperm.
  unfold select_memory, limit_param, rows_returned, sql_limit.
  set (all := order_by_timestamp_desc env (memory (db s))).
  destruct (arg_limit args) as [| |n]; cbn -[Nat.min take Z.to_nat].
  - change (Z.to_nat 10) with 10%nat.
    split; [apply length_take|apply take_length_take].
  - split; [reflexivity|]. by rewrite firstn_all.
  - destruct (Z.eqb_spec n 0) as [->|Hn]; cbn -[Nat.min take Z.to_nat].
    + change (Z.to_nat 10) with 10%nat.
      split; [apply length_take|apply take_length_take].
    + destruct (n <? 0).
      * split; [reflexivity|]. by rewrite firstn_all.
      * split; [apply length_take|apply take_length_take].
Qed.

Lemma get_memory_count_witness :
  db_error calm SelectMemory = None /\
  Permutation (order_by_timestamp_desc calm (memory (db two_exchanges)))
    (memory (db two_exchanges)) /\
  (exists rows,
     call_tool_request "get_memory" (Some (limit_args (LimitNumber 0))) calm
       two_exchanges
       = (Ok (MemoryRows rows), two_exchanges) /\
     length rows = 2%nat /\
     rows = take (length rows)
              (order_by_timestamp_desc calm (memory (db two_exchanges)))) /\
  call_tool_request "get_memory" None calm two_exchanges
    = (Throw (Error "Cannot read properties of undefined (reading 'limit')"),
       two_exchanges).
Proof.
  split; [reflexivity|].
  split; [apply (proj1 (stable_order_by_answers (memory (db two_exchanges))))|].
  split.
  - exact (get_memory_count calm two_exchanges
             (Some (limit_args (LimitNumber 0))) eq_refl
             (proj1 (stable_order_by_answers (memory (db two_exchanges))))).
  - exact (get_memory_count calm two_exchanges None eq_refl
             (proj1 (stable_order_by_answers (memory (db two_exchanges))))).
Defined.

(** The first row of a newest-first permutation is the strictly newest
    row. *)
Lemma newest_first_head (x : Memory) (old rows : list Memory) :
  Permutation rows (old ++ [x]) ->
  newest_first rows ->
  Forall (fun r => String.ltb (timestamp r) (timestamp x) = true) old ->
  exists rest, rows = x :: rest.
Proof.
  intros Hperm Hsorted Hnew.
  destruct rows as [|h rest].
  { apply Permutation_nil in Hperm. by destruct old. }
  exists rest. f_equal.
  assert (Hh : h ∈ (old ++ [x])%list) by (rewrite <- Hperm; apply list_elem_of_here).
  apply elem_of_app in Hh as [Hh|Hh]; [|by apply list_elem_of_singleton in Hh].
  exfalso.
  assert (Hx : x ∈ h :: rest).
  { rewrite Hperm. apply elem_of_app. right. apply list_elem_of_here. }
  rewrite Forall_forall in Hnew. specialize (Hnew h Hh).
  apply elem_of_cons in Hx as [->|Hx].
  - unfold String.ltb in Hnew.
    assert (Hc : String.compare (timestamp h) (timestamp h) = Eq).
    { pose proof (String.compare_antisym (timestamp h) (timestamp h)) as Ha.
      destruct (String.compare (timestamp h) (timestamp h)); done. }
    by rewrite Hc in Hnew.
  - apply StronglySorted_inv in Hsorted as [_ Hall].
    rewrite Forall_forall in Hall. specialize (Hall x Hx).
    unfold not_older, String.leb in Hall. unfold String.ltb in Hnew.
    rewrite String.compare_antisym in Hall.
    destruct (String.compare (timestamp h) (timestamp x)); done.
Qed.

(** X12: when a chat returns at a time strictly later than every stored
    timestamp, [get_memory] with limit 1, on an engine that answers, returns
    exactly the Exchange of that chat: its prompt, the response that was
    delivered, and the provider that was current. *)
Theorem chat_then_latest env1 env2 s args r s1 :
  handleChat args env1 s = (Ok r, s1) ->
  Forall (fun m => String.ltb (timestamp m) (now env1) = true) (memory (db s)) ->
  db_error env2 SelectMemory = None ->
  engine_answers env2 (memory (db s1)) ->
  exists message text,
    arg_message args = Some message /\
    r = Text text /\
    handleGetMemory (mkArgs None (LimitNumber 1) None None) env2 s1
      = (Ok (MemoryRows [exchange env1 s message text]), s1).
Proof.
  intros Hchat Hnew Hdb [Hperm Hsorted].
  destruct (handleChat_returns _ _ _ _ _ Hchat)
    as (message & text & s0 & Ha & _ & _ & -> & Hmem).
  exists message, text. split; [exact Ha|]. split; [reflexivity|].
  destruct (newest_first_head (exchange env1 s message text) (memory (db s))
              (order_by_timestamp_desc env2 (memory (db s1))))
    as [rest Hrows]; [by rewrite <- Hmem|exact Hsorted|exact Hnew|].
  unfold handleGetMemory. run. rewrite Hdb. simpl.
  unfold select_memory, sql_limit. simpl. by rewrite Hrows.
Qed.

Lemma chat_then_latest_witness :
  exists s1,
    handleChat hello_args later two_exchanges = (Ok (Text "hello back"), s1) /\
    Forall (fun m => String.ltb (timestamp m) (now later) = true)
      (memory (db two_exchanges)) /\
    db_error calm SelectMemory = None /\
    engine_answers calm (memory (db s1)) /\
    exists message text,
      arg_message hello_args = Some message /\
      Text "hello back" = Text text /\
      handleGetMemory (mkArgs None (LimitNumber 1) None None) calm s1
        = (Ok (MemoryRows [exchange later two_exchanges message text]), s1).
Proof.
  eexists.
  assert (Hnew : Forall (fun m => String.ltb (timestamp m) (now later) = true)
                   (memory (db two_exchanges))).
  { repeat constructor. }
  split; [vm_compute; reflexivity|]. split; [exact Hnew|].
  split; [reflexivity|]. split; [apply stable_order_by_answers|].
  eapply (chat_then_latest later calm two_exchanges hello_args).
  - vm_compute; reflexivity.
  - exact Hnew.
  - reflexivity.
  - apply stable_order_by_answers.
Defined.

(** ** Chat, backend by backend *)

(** A cloud query with a key is one POST to the endpoint, with the current
    model of the provider. *)
Lemma query_provider_cloud p args message env s :
  cloud p ->
  api_key p (this s) <> "" ->
  query_provider p args message env s
    = axios_post (endpoint p) (currentModel (this s) !! p) message env s.
Proof.
  unfold cloud, api_key, endpoint, query_provider.
  intros [-> | [-> | ->]] Hk; simpl in *;
    unfold queryOpenAI, queryAnthropic, queryOpenRouter; run;
    by rewrite decide_False by exact Hk.
Qed.

(** X13: a chat on a cloud provider with a key sends exactly one request,
    to that provider's endpoint and with that provider's current model,
    whatever comes back (nothing is retried).  When the request fails, the
    call fails with an internal error that carries the upstream message and
    nothing is stored; when it returns a text, that text is the result
    unless the insertion fails. *)
Theorem cloud_chat_one_request env s args message :
  cloud (currentProvider (this s)) ->
  api_key (currentProvider (this s)) (this s) <> "" ->
  arg_message args = Some message ->
  message <> "" ->
  requests (snd (handleChat args env s))
    = (requests s ++ [endpoint (currentProvider (this s))])%list /\
  match post env (endpoint (currentProvider (this s)))
          (currentModel (this s) !! currentProvider (this s)) message with
  | HttpFails e =>
      handleChat args env s
        = (Throw (chat_failure args e),
           log_request (endpoint (currentProvider (this s))) s)
  | HttpReturns text =>
      match db_error env InsertMemory with
      | None => fst (handleChat args env s) = Ok (Text text)
      | Some e => fst (handleChat args env s) = Throw (chat_failure args e)
      end
  end.
Proof.
  intros Hc Hk Ha Hm. unfold handleChat. rewrite Ha. simpl.
  rewrite bool_decide_eq_false_2 by exact Hm.
  unfold storeMemory, chat_failure. run.
  rewrite (query_provider_cloud _ args message env s Hc Hk).
  unfold axios_post.
  destruct (post env (endpoint (currentProvider (this s)))
              (currentModel (this s) !! currentProvider (this s)) message)
    as [e|text]; simpl; [by split|].
  destruct (db_error env InsertMemory) as [e|]; by split.
Qed.

Lemma cloud_chat_one_request_witness :
  cloud (currentProvider (this synced)) /\
  api_key (currentProvider (this synced)) (this synced) <> "" /\
  arg_message hello_args = Some "hello" /\
  "hello" <> "" /\
  requests (snd (handleChat hello_args backends_down synced))
    = (requests synced ++ ["https://api.openai.com/v1/chat/completions"])%list /\
  handleChat hello_args backends_down synced
    = (Throw (McpError InternalError
                "Error querying undefined: timeout of 0ms exceeded"),
       log_request "https://api.openai.com/v1/chat/completions" synced).
Proof.
  assert (Hc : cloud (currentProvider (this synced))) by (left; reflexivity).
  assert (Hk : api_key (currentProvider (this synced)) (this synced) <> "")
    by (vm_compute; discriminate).
  split; [exact Hc|]. split; [exact Hk|]. split; [reflexivity|].
  split; [discriminate|].
  refine (cloud_chat_one_request backends_down synced hello_args "hello"
            Hc Hk eq_refl _).
  discriminate.
Defined.

Lemma existsb_listed (model : option string) (names : list string) :
  existsb (fun n => bool_decide (Some n = model)) names = true
  <-> exists n, n ∈ names /\ Some n = model.
Proof.
  induction names as [|n names IH]; simpl.
  - split; [discriminate|]. intros (n & Hn & _). by apply elem_of_nil in Hn.
  - rewrite orb_true_iff, IH, bool_decide_eq_true. split.
    + intros [H|(x & Hx & H)].
      * exists n. split; [apply list_elem_of_here|exact H].
      * exists x. split; [by apply list_elem_of_further|exact H].
    + intros (x & Hx & H). apply elem_of_cons in Hx as [->|Hx]; [by left|].
      right. by exists x.
Qed.

(** [check_ollama_model] returns exactly when the model is listed, and it
    always makes the one request for the list. *)
Lemma check_ollama_model_listed env s :
  ollama_model_listed env s ->
  check_ollama_model (currentModel (this s) !! "ollama") env s
    = (Ok tt, log_request ollama_tags_url s).
Proof.
  unfold ollama_model_listed, check_ollama_model, axios_get_tags. run.
  destruct (get_tags env) as [e|names]; [done|]. intros H.
  apply existsb_listed in H. by rewrite H.
Qed.

Lemma check_ollama_model_unlisted env s :
  ~ ollama_model_listed env s ->
  exists e,
    check_ollama_model (currentModel (this s) !! "ollama") env s
      = (Throw e, log_request ollama_tags_url s) /\
    (forall m0, get_tags env = TagsFails (SystemError "ECONNREFUSED" m0) ->
                e = Error ollama_not_running).
Proof.
  unfold ollama_model_listed, check_ollama_model, axios_get_tags. run.
  destruct (get_tags env) as [e|names]; simpl.
  - intros _. destruct (has_code e "ECONNREFUSED") eqn:Hc; simpl.
    + eexists. split; [reflexivity|done].
    + eexists. split; [reflexivity|]. intros m0 [= ->].
      vm_compute in Hc. discriminate.
  - intros H.
    destruct (existsb (fun n => bool_decide (Some n = currentModel (this s) !! "ollama"))
                names) eqn:Hb.
    + apply existsb_listed in Hb. done.
    + eexists. split; [reflexivity|]. discriminate.
Qed.

(** X14: a chat on ollama first asks the local service for its models, and
    unless the current model is listed it stops there: the generation
    request is never sent, nothing is stored, and the call fails with an
    internal error; when the service refuses the connection, the error
    says that Ollama is not running. *)
Theorem ollama_chat_needs_listed_model env s args message :
  currentProvider (this s) = "ollama" ->
  arg_message args = Some message ->
  message <> "" ->
  ~ ollama_model_listed env s ->
  exists msg,
    handleChat args env s
      = (Throw (McpError InternalError msg), log_request ollama_tags_url s) /\
    (forall m0, get_tags env = TagsFails (SystemError "ECONNREFUSED" m0) ->
       msg = "Error querying " +:+ render (arg_provider args)
               +:+ ": Ollama error: " +:+ ollama_not_running).
Proof.
  intros Hp Ha Hm Hl. unfold handleChat. rewrite Ha. simpl.
  rewrite bool_decide_eq_false_2 by exact Hm.
  destruct (check_ollama_model_unlisted env s Hl) as (e & Hcheck & Hrefused).
  unfold query_provider, queryOllama, storeMemory. run. rewrite Hp. simpl.
  rewrite Hcheck. simpl.
  eexists. split; [reflexivity|].
  intros m0 Ht. by rewrite (Hrefused m0 Ht).
Qed.

Lemma ollama_chat_needs_listed_model_witness :
  currentProvider (this on_ollama) = "ollama" /\
  arg_message hello_args = Some "hello" /\
  "hello" <> "" /\
  ~ ollama_model_listed backends_down on_ollama /\
  exists msg,
    handleChat hello_args backends_down on_ollama
      = (Throw (McpError InternalError msg),
         log_request ollama_tags_url on_ollama) /\
    (forall m0,
       get_tags backends_down = TagsFails (SystemError "ECONNREFUSED" m0) ->
       msg = "Error querying " +:+ render (arg_provider hello_args)
               +:+ ": Ollama error: " +:+ ollama_not_running).
Proof.
  assert (Hl : ~ ollama_model_listed backends_down on_ollama) by (intros []).
  split; [vm_compute; reflexivity|]. split; [reflexivity|].
  split; [discriminate|]. split; [exact Hl|].
  refine (ollama_chat_needs_listed_model backends_down on_ollama hello_args
            "hello" _ eq_refl _ Hl).
  - vm_compute; reflexivity.
  - discriminate.
Defined.

(** X15: a chat on ollama whose model is listed sends the list request and
    then one generation request with that model.  An empty reply text is
    refused as "No response received from Ollama" and nothing is stored; a
    failed request is reported with its message behind "Ollama error: "; a
    non-empty text is the result unless the insertion fails. *)
Theorem ollama_chat_outcomes env s args message :
  currentProvider (this s) = "ollama" ->
  arg_message args = Some message ->
  message <> "" ->
  ollama_model_listed env s ->
  requests (snd (handleChat args env s))
    = (requests s ++ [ollama_tags_url; ollama_generate_url])%list /\
  match post env ollama_generate_url (currentModel (this s) !! "ollama") message with
  | HttpFails e =>
      fst (handleChat args env s)
        = Throw (chat_failure args
                   (Error ("Ollama error: "
                             +:+ or_else (error_message e) "Unknown error"))) /\
      db (snd (handleChat args env s)) = db s
  | HttpReturns text =>
      if decide (text = "") then
        fst (handleChat args env s)
          = Throw (chat_failure args
                     (Error "Ollama error: No response received from Ollama")) /\
        db (snd (handleChat args env s)) = db s
      else
        match db_error env InsertMemory with
        | None => fst (handleChat args env s) = Ok (Text text)
        | Some e => fst (handleChat args env s) = Throw (chat_failure args e)
        end
  end.
Proof.
  intros Hp Ha Hm Hl. unfold handleChat. rewrite Ha. simpl.
  rewrite bool_decide_eq_false_2 by exact Hm.
  unfold query_provider, queryOllama, chat_failure, storeMemory. run.
  rewrite Hp. simpl.
  rewrite (check_ollama_model_listed env s Hl).
  unfold axios_post, ollama_generate_url. simpl.
  destruct (post env "http://localhost:11434/api/generate"
              (currentModel (this s) !! "ollama") message) as [e|text]; simpl.
  - split; [by rewrite <- app_assoc|]. by split.
  - destruct (decide (text = "")) as [->|Ht]; simpl.
    + split; [by rewrite <- app_assoc|]. by split.
    + destruct (db_error env InsertMemory); simpl;
        (split; [by rewrite <- app_assoc|reflexivity]).
Qed.

Lemma ollama_chat_outcomes_witness :
  currentProvider (this on_ollama) = "ollama" /\
  arg_message hello_args = Some "hello" /\
  "hello" <> "" /\
  ollama_model_listed ollama_mute on_ollama /\
  requests (snd (handleChat hello_args ollama_mute on_ollama))
    = (requests on_ollama ++ [ollama_tags_url; ollama_generate_url])%list /\
  fst (handleChat hello_args ollama_mute on_ollama)
    = Throw (McpError InternalError
               "Error querying undefined: Ollama error: No response received from Ollama") /\
  db (snd (handleChat hello_args ollama_mute on_ollama)) = db on_ollama.
Proof.
  assert (Hl : ollama_model_listed ollama_mute on_ollama).
  { exists "llama3.3:latest". split; [apply list_elem_of_here|].
    vm_compute; reflexivity. }
  split; [vm_compute; reflexivity|]. split; [reflexivity|].
  split; [discriminate|]. split; [exact Hl|].
  refine (ollama_chat_outcomes ollama_mute on_ollama hello_args "hello"
            _ eq_refl _ Hl).
  - vm_compute; reflexivity.
  - discriminate.
Defined.

(** X16: a chat call never changes the object, the settings file, the
    console or the settings table, and a chat call that fails, for whatever
    reason, leaves the whole store as it was. *)
Theorem chat_touches_only_memory env s args :
  this (snd (handleChat args env s)) = this s /\
  settingsFile (snd (handleChat args env s)) = settingsFile s /\
  console (snd (handleChat args env s)) = console s /\
  settings (db (snd (handleChat args env s))) = settings (db s) /\
  (forall e, fst (handleChat args env s) = Throw e ->
             db (snd (handleChat args env s)) = db s).
Proof.
  unfold handleChat. destruct (falsy (arg_message args)); [by repeat split|].
  unfold storeMemory. run.
  pose proof (query_provider_only_requests (currentProvider (this s)) args
                (render (arg_message args)) env s) as Hframe.
  destruct (query_provider (currentProvider (this s)) args
              (render (arg_message args)) env s) as [[text|e] s1];
    destruct Hframe as (Hthis & Hdb & Hfile & Hcons); simpl in *.
  - destruct (db_error env InsertMemory) as [e|]; simpl.
    + by rewrite Hdb.
    + rewrite Hdb. repeat split; done.
  - by rewrite Hdb.
Qed.

(** A chat on openai while the backends are down: the store is as before. *)
Lemma chat_touches_only_memory_witness :
  fst (handleChat hello_args backends_down synced)
    = Throw (McpError InternalError
               "Error querying undefined: timeout of 0ms exceeded") /\
  this (snd (handleChat hello_args backends_down synced)) = this synced /\
  db (snd (handleChat hello_args backends_down synced)) = db synced.
Proof.
  destruct (chat_touches_only_memory backends_down synced hello_args)
    as (H1 & _ & _ & _ & H5).
  assert (Hf : fst (handleChat hello_args backends_down synced)
               = Throw (McpError InternalError
                          "Error querying undefined: timeout of 0ms exceeded"))
    by (vm_compute; reflexivity).
  split; [exact Hf|]. split; [exact H1|]. exact (H5 _ Hf).
Defined.

(** ** The tool list and the dispatcher *)

(** A request without an arguments object leaves the state that the same
    call with an empty arguments object leaves, so the states reached
    through [call_tool] are all the states there are. *)
Lemma call_tool_request_state name env s :
  snd (call_tool_request name None env s)
    = snd (call_tool name (mkArgs None LimitUndefined None None) env s).
Proof.
  unfold call_tool_request, call_tool. repeat case_decide; try reflexivity.
  unfold handleGetMemory. run. by destruct (db_error env SelectMemory).
Qed.



(** X18: the handlers enforce what the tool list declares, for a request
    that carries an arguments object: for every listed tool and every
    property that its schema marks as required, a call in which that
    argument is absent from the object or empty is refused with an
    invalid-params error that names the property.  A request without an
    arguments object is not refused that way: it fails with the TypeError
    of reading that property of undefined.  Either way nothing is changed
    or requested. *)
Theorem required_arguments_enforced t property a env s :
  t ∈ list_tools ->
  property ∈ tool_required t ->
  match a with
  | Some args =>
      falsy (string_argument property args) = true ->
      call_tool_request (tool_name t) (Some args) env s
        = (Throw (McpError InvalidParams
                    ("Missing required parameter: " +:+ property)), s)
  | None =>
      call_tool_request (tool_name t) None env s
        = (Throw (reading_undefined property), s)
  end.
Proof.
  intros Ht Hr. unfold list_tools in Ht.
  repeat (apply elem_of_cons in Ht as [->|Ht]);
    [| | | | |by apply elem_of_nil in Ht]; simpl in Hr;
    try (by apply elem_of_nil in Hr);
    apply list_elem_of_singleton in Hr as ->;
    (destruct a as [args|]; [intros Hf|reflexivity]).
  - change (falsy (arg_message args) = true) in Hf.
    unfold call_tool_request, call_tool, handleChat. simpl. by rewrite Hf.
  - change (falsy (arg_provider args) = true) in Hf.
    unfold call_tool_request, call_tool, handleUseProvider. simpl. by rewrite Hf.
  - change (falsy (arg_model args) = true) in Hf.
    unfold call_tool_request, call_tool, handleUseModel. simpl. by rewrite Hf.
Qed.

Lemma required_arguments_enforced_witness :
  mkTool "use_model" "Switch to a different model for the current provider"
    [mkProperty "model" "string"
       "The model to use. For OpenAI: gpt-4o, gpt-4o-mini, gpt-4-turbo. For OpenRouter: openai/gpt-4, anthropic/claude-2, etc. For Ollama: llama2, codellama, etc."]
    ["model"] ∈ list_tools /\
  "model" ∈ ["model"] /\
  falsy (string_argument "model" empty_model_args) = true /\
  call_tool_request "use_model" (Some empty_model_args) calm synced
    = (Throw (McpError InvalidParams "Missing required parameter: model"), synced) /\
  call_tool_request "use_model" None calm synced
    = (Throw (Error "Cannot read properties of undefined (reading 'model')"),
       synced).
Proof.
  assert (Ht : mkTool "use_model"
                 "Switch to a different model for the current provider"
                 [mkProperty "model" "string"
                    "The model to use. For OpenAI: gpt-4o, gpt-4o-mini, gpt-4-turbo. For OpenRouter: openai/gpt-4, anthropic/claude-2, etc. For Ollama: llama2, codellama, etc."]
                 ["model"] ∈ list_tools).
  { unfold list_tools.
    repeat first [apply list_elem_of_here | apply list_elem_of_further]. }
  assert (Hr : "model" ∈ ["model"]) by apply list_elem_of_here.
  split; [exact Ht|]. split; [exact Hr|]. split; [reflexivity|]. split.
  - exact (required_arguments_enforced _ "model" (Some empty_model_args) calm
             synced Ht Hr eq_refl).
  - exact (required_arguments_enforced _ "model" None calm synced Ht Hr).
Defined.

Lemma unregistered_not_four p :
  ~ registered p ->
  p <> "openai" /\ p <> "anthropic" /\ p <> "openrouter" /\ p <> "ollama".
Proof.
  unfold registered, validProviders. intros H.
  repeat split; intros ->; apply H;
    repeat first [apply list_elem_of_here | apply list_elem_of_further].
Qed.

(** X19: while the current provider is not one of the four registered
    identifiers (a start adopts whatever the row or the settings file
    holds), every chat with a message and every [use_model] with a model
    fails with an internal error and changes nothing; [use_model] says
    that the model cannot be set for that provider.  [use_provider] with a
    registered identifier is still accepted. *)
Theorem unregistered_provider_blocks env s args :
  ~ registered (currentProvider (this s)) ->
  (falsy (arg_message args) = false ->
   exists msg, handleChat args env s = (Throw (McpError InternalError msg), s)) /\
  (falsy (arg_model args) = false ->
   handleUseModel args env s
     = (Throw (McpError InternalError
                 ("Cannot set model for provider: " +:+ currentProvider (this s))),
        s)) /\
  (forall p, arg_provider args = Some p -> registered p ->
             db_error env UpdateProvider = None ->
             exists r s', handleUseProvider args env s = (Ok r, s') /\
                          currentProvider (this s') = p).
Proof.
  intros Hp. destruct (unregistered_not_four _ Hp) as (H1 & H2 & H3 & H4).
  repeat split.
  - intros Hf. unfold handleChat, query_provider. rewrite Hf. run.
    rewrite !decide_False by done. simpl. by eexists.
  - intros Hf. unfold handleUseModel, validate_model. rewrite Hf. run.
    by rewrite !decide_False by done.
  - intros p Ha Hreg Hdb.
    destruct (handleUseProvider_accepts args p env s Ha Hreg Hdb)
      as (f' & lines & Hrun & _).
    eexists _, _. split; [exact Hrun|reflexivity].
Qed.

Lemma unregistered_provider_blocks_witness :
  ~ registered (currentProvider (this on_chatgpt)) /\
  (exists msg,
     handleChat hello_args calm on_chatgpt
       = (Throw (McpError InternalError msg), on_chatgpt)) /\
  handleUseModel gpt4o_args calm on_chatgpt
    = (Throw (McpError InternalError "Cannot set model for provider: chatgpt"),
       on_chatgpt).
Proof.
  assert (H : ~ registered (currentProvider (this on_chatgpt))).
  { replace (currentProvider _) with "chatgpt" by (vm_compute; reflexivity).
    unfold registered, validProviders. intros H. absurd_member H. }
  split; [exact H|].
  destruct (unregistered_provider_blocks calm on_chatgpt hello_args H)
    as (H1 & _ & _).
  destruct (unregistered_provider_blocks calm on_chatgpt gpt4o_args H)
    as (_ & H2 & _).
  split; [exact (H1 eq_refl)|exact (H2 eq_refl)].
Defined.

(** ** The models, call by call *)

Lemma other_models_kept_refl s : other_models_kept s s.
Proof. by split. Qed.

Lemma other_models_kept_trans s1 s2 s3 :
  other_models_kept s1 s2 -> other_models_kept s2 s3 -> other_models_kept s1 s3.
Proof.
  intros [P1 M1] [P2 M2]. split; [congruence|].
  intros q Hq. rewrite M2, M1; [done..|congruence].
Qed.

Lemma handleUseModel_other_models_kept args :
  keeps other_models_kept (handleUseModel args).
Proof.
  unfold handleUseModel, validate_model, record_model, check_ollama_model.
  frame other_models_kept_refl other_models_kept_trans; intros;
    (split; [reflexivity|]); intros q Hq; simpl; try reflexivity.
  by rewrite lookup_insert_ne.
Qed.

Lemma same_models_refl s : same_models s s.
Proof. reflexivity. Qed.

Lemma same_models_trans s1 s2 s3 :
  same_models s1 s2 -> same_models s2 s3 -> same_models s1 s3.
Proof. unfold same_models. congruence. Qed.

Lemma others_same_models name args :
  name <> "use_model" -> keeps same_models (call_tool name args).
Proof.
  intros Hname. unfold call_tool.
  repeat case_decide; try congruence;
    unfold handleChat, query_provider, storeMemory, queryOpenAI, queryAnthropic,
      queryOpenRouter, queryOllama, handleGetMemory, handleClearMemory,
      handleUseProvider, updateSettingsFile, check_ollama_model;
    frame same_models_refl same_models_trans; intros; reflexivity.
Qed.

(** X20: models are kept per provider.  No tool but [use_model] changes any
    model, and [use_model], whatever its outcome, leaves the model of every
    provider other than the current one as it was; so switching the
    provider away and back finds the model that was chosen. *)
Theorem models_are_per_provider name args env s :
  (name <> "use_model" ->
   currentModel (this (snd (call_tool name args env s))) = currentModel (this s)) /\
  (forall q, q <> currentProvider (this s) ->
     currentModel (this (snd (call_tool name args env s))) !! q
       = currentModel (this s) !! q).
Proof.
  split.
  - intros Hname. apply (others_same_models name args Hname env s).
  - intros q Hq. destruct (decide (name = "use_model")) as [->|Hname].
    + by apply (handleUseModel_other_models_kept args env s).
    + by rewrite (others_same_models name args Hname env s).
Qed.

(** A [use_model] on openai: the model of ollama is as before. *)
Lemma models_are_per_provider_witness :
  "ollama" <> currentProvider (this synced) /\
  currentModel (this (snd (call_tool "use_model" gpt4o_args calm synced))) !! "openai"
    = Some "gpt-4o" /\
  currentModel (this (snd (call_tool "use_model" gpt4o_args calm synced))) !! "ollama"
    = currentModel (this synced) !! "ollama".
Proof.
  assert (H : "ollama" <> currentProvider (this synced))
    by (vm_compute; discriminate).
  split; [exact H|]. split; [vm_compute; reflexivity|].
  exact (proj2 (models_are_per_provider "use_model" gpt4o_args calm synced)
           "ollama" H).
Defined.

(** X21: [use_model] on ollama asks the local service for its models before
    anything else.  When the connection is refused the call fails with an
    internal error that says Ollama is not running; any other failure of
    that request is reported with its own message.  Either way the
    in-memory model, the store and the settings file are untouched. *)
Theorem use_model_ollama_unreachable env s args m e :
  currentProvider (this s) = "ollama" ->
  arg_model args = Some m ->
  m <> "" ->
  get_tags env = TagsFails e ->
  handleUseModel args env s
    = (Throw (McpError InternalError
                (if has_code e "ECONNREFUSED" then ollama_not_running
                 else or_else (error_message e) "Failed to set model")),
       log_request ollama_tags_url s).
Proof.
  intros Hp Ha Hm Ht.
  rewrite (handleUseModel_rejected env s args m
             (if has_code e "ECONNREFUSED" then Error ollama_not_running else e)
             (log_request ollama_tags_url s) Ha Hm).
  - by destruct (has_code e "ECONNREFUSED").
  - rewrite Hp. unfold validate_model, check_ollama_model, axios_get_tags.
    simpl. run. rewrite Ht. simpl. by destruct (has_code e "ECONNREFUSED").
Qed.

Lemma use_model_ollama_unreachable_witness :
  currentProvider (this on_ollama) = "ollama" /\
  arg_model gpt4o_args = Some "gpt-4o" /\
  "gpt-4o" <> "" /\
  get_tags backends_down
    = TagsFails (SystemError "ECONNREFUSED" "connect ECONNREFUSED 127.0.0.1:11434") /\
  handleUseModel gpt4o_args backends_down on_ollama
    = (Throw (McpError InternalError
                "Ollama is not running. Please start Ollama first (https://ollama.ai)"),
       log_request ollama_tags_url on_ollama).
Proof.
  split; [vm_compute; reflexivity|]. split; [reflexivity|].
  split; [discriminate|]. split; [reflexivity|].
  refine (use_model_ollama_unreachable backends_down on_ollama gpt4o_args
            "gpt-4o" _ _ eq_refl _ eq_refl).
  - vm_compute; reflexivity.
  - discriminate.
Defined.

(** ** A start beside a settings file that is of no use *)

(** X22: a settings file that cannot be read or parsed, or that has no
    [mcpServers], never stops a start: on a store that answers, the start
    returns, the failure is one console line, and the provider comes from
    the row, or is openai (then written to the row) when there is none. *)
Theorem start_logs_unusable_file env k1 k2 k3 d f :
  db_error env CreateSettings = None ->
  db_error env SelectProvider = None ->
  db_error env InsertProvider = None ->
  (exists e, f = ReadFails e) \/ f = Holds (mkDoc None) ->
  exists s' msg,
    initializeDatabase env (new_process k1 k2 k3 d f) = (Ok tt, s') /\
    console s' = ["Failed to read settings file: " +:+ msg] /\
    currentProvider (this s') = default "openai" (provider_row d) /\
    provider_row (db s') = Some (currentProvider (this s')).
Proof.
  intros Hc Hs Hi Hf.
  unfold initializeDatabase, readSettingsFile, provider_row. run.
  rewrite Hc, Hs.
  destruct Hf as [[e ->]| ->]; simpl;
    (destruct (settings d !! "current_provider") as [v|] eqn:Hrow; simpl;
     [|rewrite Hi; simpl]);
    eexists _, _; (split; [reflexivity|]); simpl;
    rewrite ?Hrow, ?lookup_insert_eq; by repeat split.
Qed.

Lemma start_logs_unusable_file_witness :
  db_error calm CreateSettings = None /\
  db_error calm SelectProvider = None /\
  db_error calm InsertProvider = None /\
  exists s' msg,
    initializeDatabase calm (new_process "" "" "" (mkDb [] 0 ∅) (ReadFails no_file))
      = (Ok tt, s') /\
    console s' = ["Failed to read settings file: " +:+ msg] /\
    currentProvider (this s') = "openai" /\
    provider_row (db s') = Some (currentProvider (this s')).
Proof.
  split; [reflexivity|]. split; [reflexivity|]. split; [reflexivity|].
  exact (start_logs_unusable_file calm "" "" "" (mkDb [] 0 ∅) (ReadFails no_file)
           eq_refl eq_refl eq_refl (or_introl (ex_intro _ no_file eq_refl))).
Defined.
